(** * OpinionRadar: lexicon sentiment scoring and keyword mining

    A shallow embedding of [src/analyzer/sentiment_analysis.py] and
    [src/analyzer/text_mining.py], followed by the properties of the two
    engines.

    Conventions of the embedding
    - a Python [str] is the list of its code points ([pystr]); literals are
      written [u "..."], the UTF-8 decoding of the source literal;
    - numbers are exact rationals ([Q]): an [int] and a [float] of the source
      are both a [Q], and the decimal literals of the source ([1.5], [0.1])
      are the rationals they denote;
    - a [set] of strings is the list of its elements and is used through
      membership only; a [dict] and a [Counter] are association lists in
      insertion order, the order [most_common] breaks ties with;
    - a call that may raise returns a [res];
    - [print] calls write to the console only and are left out, except the
      warning of [load_stopwords], which is collected;
    - what the source takes from outside the repository is a parameter: the
      [jieba] segmenter ([Tokenizer]), the Unicode character classes of
      [str.strip], [str.isdigit] and [re] ([Unicode]), Python's [str()] on
      numbers ([NumFormat]) and the [re] matcher behind pandas'
      [Series.str.contains] ([Regex]). *)

From Stdlib Require Import List ZArith NArith QArith String Bool Lia Lqa Permutation.
Import ListNotations.

Set Implicit Arguments.

(* ================================================================== *)
(** * Python values *)
(* ================================================================== *)

(** A Python string: the sequence of its code points. *)
Definition pystr : Type := list N.

(** UTF-8 decoding of a source literal.  A continuation byte (10xxxxxx)
    extends the code point under construction, any other byte starts one. *)
Definition utf8_step (acc : list N) (b : N) : list N :=
  if ((128 <=? b) && (b <? 192))%N then
    match acc with
    | c :: r => (c * 64 + (b - 128))%N :: r
    | [] => [b]
    end
  else if (b <? 128)%N then b :: acc
  else if (b <? 224)%N then (b - 192)%N :: acc
  else if (b <? 240)%N then (b - 224)%N :: acc
  else (b - 240)%N :: acc.

Definition u (s : string) : pystr :=
  rev (fold_left utf8_step (List.map Byte.to_N (list_byte_of_string s)) []).

Fixpoint pystr_eqb (a b : pystr) : bool :=
  match a, b with
  | [], [] => true
  | x :: a', y :: b' => (x =? y)%N && pystr_eqb a' b'
  | _, _ => false
  end.

(** [w in s] for a [set] of strings, and for the keys of a [dict]. *)
Definition mem (w : pystr) (s : list pystr) : bool := existsb (pystr_eqb w) s.

(** [d.get(k, default)] on a [dict] with string keys. *)
Fixpoint dict_get (A : Type) (d : list (pystr * A)) (k : pystr) (default : A) : A :=
  match d with
  | [] => default
  | (k', v) :: r => if pystr_eqb k' k then v else dict_get r k default
  end.

(** [sub in s]: [sub] occurs in [s] as a contiguous run. *)
Fixpoint starts_with (sub s : pystr) : bool :=
  match sub, s with
  | [], _ => true
  | x :: sub', y :: s' => (x =? y)%N && starts_with sub' s'
  | _ :: _, [] => false
  end.

Fixpoint contains (sub s : pystr) : bool :=
  starts_with sub s ||
  match s with
  | [] => false
  | _ :: s' => contains sub s'
  end.

(** The cells of a table: a string, a number, or a missing value
    ([None] / [NaN]). *)
Inductive pyval : Type :=
| VStr (s : pystr)
| VNum (x : Q)
| VNull.

Definition isinstance_str (v : pyval) : bool :=
  match v with VStr _ => true | _ => false end.

Definition notna (v : pyval) : bool :=
  match v with VNull => false | _ => true end.

(** Exceptions that the modelled code can raise. *)
Inductive exn : Type :=
| NameError (name : string)
| KeyError (key : pystr)
| AttributeError
| ReError
| OSError.

Inductive res (A : Type) : Type :=
| Ok (a : A)
| Raise (e : exn).
Arguments Ok {A} a.
Arguments Raise {A} e.

Definition bind (A B : Type) (m : res A) (k : A -> res B) : res B :=
  match m with
  | Ok a => k a
  | Raise e => Raise e
  end.

Notation "x <- m ;; k" := (bind m (fun x => k))
  (at level 61, m at next level, right associativity).

(** [x < y] on numbers, as a boolean. *)
Definition Qltb (x y : Q) : bool :=
  match x ?= y with Lt => true | _ => false end.

(** The built-ins [min(a, b)] and [max(a, b)]: the first argument is kept
    unless the second is strictly smaller (resp. greater). *)
Definition py_min (a b : Q) : Q := if Qltb b a then b else a.
Definition py_max (a b : Q) : Q := if Qltb a b then b else a.

(* ================================================================== *)
(** * Capabilities taken from outside the repository *)
(* ================================================================== *)

(** [jieba]: [cut] is [list(jieba.cut(text))], [initialize] is
    [jieba.initialize()]. *)
Class Tokenizer : Type := {
  cut : pystr -> list pystr;
  initialize : res unit
}.

(** The Unicode classes Python consults: [isspace] for [str.strip] and
    the [\s] of [re], [isdigit] for [str.isdigit], [isword] for the [\w]
    of [re]. *)
Class Unicode : Type := {
  isspace : N -> bool;
  isdigit : N -> bool;
  isword : N -> bool
}.

(** [str(x)] for a number [x]. *)
Class NumFormat : Type := {
  num_str : Q -> pystr
}.

(** The [re] module: [re_compile pat] is [re.compile(pat)], which raises
    [re.error] on an ill-formed pattern; [re_search p s] is
    [p.search(s) is not None]. *)
Class Regex : Type := {
  pattern : Type;
  re_compile : pystr -> res pattern;
  re_search : pattern -> pystr -> bool
}.

(* ================================================================== *)
(** * [collections.Counter] *)
(* ================================================================== *)

(** A [Counter] (and the [dict] made from it) keeps its keys in insertion
    order, which [most_common] uses to break ties. *)
Definition counter : Type := list (pystr * nat).

Fixpoint counter_add (c : counter) (w : pystr) : counter :=
  match c with
  | [] => [(w, 1%nat)]
  | (k, n) :: r =>
      if pystr_eqb k w then (k, S n) :: r else (k, n) :: counter_add r w
  end.

Definition Counter (ws : list pystr) : counter := fold_left counter_add ws [].

(** [sorted(items, key=count, reverse=True)]: the sort is stable, so items
    of equal count stay in insertion order. *)
Fixpoint insert_desc (x : pystr * nat) (l : counter) : counter :=
  match l with
  | [] => [x]
  | y :: r => if (snd x <? snd y)%nat then y :: insert_desc x r else x :: y :: r
  end.

Definition sorted_desc (c : counter) : counter := fold_right insert_desc [] c.

(** [Counter.most_common(n)] for a count [n]: [heapq.nlargest(n, ...)], which
    is [sorted(..., reverse=True)[:n]]. *)
Definition most_common (c : counter) (n : nat) : counter := firstn n (sorted_desc c).

(** [c.values()]. *)
Definition counter_values (c : counter) : list nat := List.map snd c.

(* ================================================================== *)
(** * [pandas.DataFrame] *)
(* ================================================================== *)

(** A table: its columns in order, each a name and the cells of its rows. *)
Definition DataFrame : Type := list (pystr * list pyval).

(** [df[col]]. *)
Fixpoint df_getitem (df : DataFrame) (col : pystr) : res (list pyval) :=
  match df with
  | [] => Raise (KeyError col)
  | (name, cells) :: r => if pystr_eqb name col then Ok cells else df_getitem r col
  end.

(** [df[col] = cells]: an existing column is replaced where it stands, a new
    one is appended. *)
Fixpoint df_setitem (df : DataFrame) (col : pystr) (cells : list pyval) : DataFrame :=
  match df with
  | [] => [(col, cells)]
  | (name, old) :: r =>
      if pystr_eqb name col then (name, cells) :: r
      else (name, old) :: df_setitem r col cells
  end.

(** [Series.dropna()]. *)
Definition dropna (cells : list pyval) : list pyval := filter notna cells.

(** [str(v)] of a cell that is not missing. *)
Definition py_str `{NumFormat} (v : pyval) : pystr :=
  match v with
  | VStr s => s
  | VNum x => num_str x
  | VNull => u "None"
  end.

(** [sep.join(parts)]. *)
Fixpoint join (sep : pystr) (parts : list pystr) : pystr :=
  match parts with
  | [] => []
  | [p] => p
  | p :: r => p ++ sep ++ join sep r
  end.

(** The caller's tables live in a store and are passed by reference. *)
Definition ref : Type := nat.
Definition store : Type := ref -> DataFrame.

Definition store_set (h : store) (r : ref) (df : DataFrame) : store :=
  fun r' => if (r' =? r)%nat then df else h r'.

(* ================================================================== *)
(** * [sentiment_analysis.py]: class [SentimentAnalyzer] *)
(* ================================================================== *)

Module SentimentAnalyzer.

(** The attributes set by [__init__]. *)
Record analyzer : Type := {
  positive_words : list pystr;
  negative_words : list pystr;
  intensity_words : list (pystr * Q);
  negation_words : list pystr
}.

(** [SentimentAnalyzer()]: the built-in lexicon. *)
Definition init : analyzer := {|
  positive_words := List.map u
    [ "好"; "棒"; "赞"; "优秀"; "漂亮"; "美"; "可爱"; "喜欢"; "爱";
      "棒棒"; "厉害"; "强大"; "精彩"; "完美"; "超赞"; "太棒了";
      "支持"; "加油"; "棒棒哒"; "美美哒"; "喜欢喜欢"; "赞赞赞" ]%string;
  negative_words := List.map u
    [ "差"; "烂"; "垃圾"; "差劲"; "恶心"; "讨厌"; "无聊"; "难看";
      "失望"; "无语"; "不行"; "不好"; "糟糕"; "差评"; "差差差";
      "恶评"; "差劲"; "太差了"; "不好看"; "没意思"; "不喜欢" ]%string;
  intensity_words :=
    [ (u "非常", 1.5); (u "极其", 1.5); (u "十分", 1.5); (u "超级", 1.5);
      (u "特别", 1.5);
      (u "很", 1.3); (u "挺", 1.2); (u "比较", 1.1);
      (u "有点", 0.8); (u "稍微", 0.8); (u "略微", 0.8) ];
  negation_words := List.map u
    [ "不"; "没"; "无"; "非"; "莫"; "勿"; "未" ]%string
|}.

(** One iteration of the [for] loop of [analyze_sentence], on the loop
    variables [(score, negation)]. *)
Definition loop_body (self : analyzer) (st : Q * bool) (word : pystr) : Q * bool :=
  let '(score, negation) := st in
  if mem word (negation_words self) then (score, true)
  else
    let intensity := dict_get (intensity_words self) word 1.0 in
    let accumulate (word_score : Q) : Q * bool :=
      let '(word_score, negation) :=
        if negation then (- word_score, false) else (word_score, negation) in
      (score + word_score * intensity, negation) in
    if mem word (positive_words self) then accumulate 1
    else if mem word (negative_words self) then accumulate (-1)
    else (score, negation).

(** The loop over the token sequence, from [score = 0], [negation = False]. *)
Definition run_loop (self : analyzer) (words : list pystr) (st : Q * bool) : Q * bool :=
  fold_left (loop_body self) words st.

(** The body of [analyze_sentence] once the text is segmented. *)
Definition score_words (self : analyzer) (words : list pystr) : Q :=
  let score := fst (run_loop self words (0, false)) in
  if (0 <? List.length words)%nat
  then py_max (-1) (py_min 1 (score / inject_Z (Z.of_nat (List.length words))))
  else score.

Definition analyze_sentence `{Tokenizer} (self : analyzer) (text : pyval) : Q :=
  match text with
  | VStr s => score_words self (cut s)
  | _ => 0
  end.

Definition classify_sentiment (score : Q) : pystr :=
  if Qltb 0.1 score then u "积极"
  else if Qltb score (-0.1) then u "消极"
  else u "中性".

(** [Series.value_counts()] on the label column: one entry per label that
    occurs, by decreasing count. *)
Definition value_counts (labels : list pystr) : counter :=
  sorted_desc (Counter labels).

Definition label_of (v : pyval) : pystr :=
  match v with VStr s => s | _ => [] end.

Definition score_of (v : pyval) : Q :=
  match v with VNum x => x | _ => 0 end.

(** [analyze_comments(df, text_column)]: [df] is the caller's table, which
    the two assignments update in the store; the same reference is
    returned with the label distribution. *)
Definition analyze_comments `{Tokenizer} (self : analyzer) (h : store) (df : ref)
    (text_column : pystr) : res (store * (ref * counter)) :=
  texts <- df_getitem (h df) text_column ;;
  let h1 := store_set h df
    (df_setitem (h df) (u "情感分数")
       (List.map (fun v => VNum (analyze_sentence self v)) texts)) in
  scores <- df_getitem (h1 df) (u "情感分数") ;;
  let h2 := store_set h1 df
    (df_setitem (h1 df) (u "情感分类")
       (List.map (fun v => VStr (classify_sentiment (score_of v))) scores)) in
  labels <- df_getitem (h2 df) (u "情感分类") ;;
  let sentiment_counts := value_counts (List.map label_of labels) in
  Ok (h2, (df, sentiment_counts)).

(** The [dict] returned by [get_sentiment_summary]; the source keys are
    积极评论数, 消极评论数, 中性评论数, 平均情感分数 and 情感方差.  [None] is
    the [NaN] that [mean] gives on no number and [var] on fewer than two. *)
Record summary : Type := {
  positive_count : nat;
  negative_count : nat;
  neutral_count : nat;
  mean_score : option Q;
  score_variance : option Q
}.

(** How [get_sentiment_summary] ends: with its [dict], with an exception of
    [exn], or inside [Series.mean] because the score column holds a string
    (a [TypeError] in current pandas; what older versions make of such a
    column is not modelled). *)
Inductive outcome (A : Type) : Type :=
| Returns (a : A)
| Fails (e : exn)
| NotNumeric.
Arguments Returns {A} a.
Arguments Fails {A} e.
Arguments NotNumeric {A}.

(** [len(df[df[col] == label])] on the cells of [col]. *)
Definition count_equal (cells : list pyval) (label : pystr) : nat :=
  List.length
    (filter (fun v => match v with VStr s => pystr_eqb s label | _ => false end) cells).

(** The numbers that [mean] and [var] work on: missing cells are skipped. *)
Fixpoint numbers (cells : list pyval) : option (list Q) :=
  match cells with
  | [] => Some []
  | VNum x :: r => option_map (cons x) (numbers r)
  | VNull :: r => numbers r
  | VStr _ :: _ => None
  end.

Definition total (xs : list Q) : Q := fold_right Qplus 0 xs.

(** [Series.mean()]. *)
Definition series_mean (xs : list Q) : option Q :=
  match xs with
  | [] => None
  | _ => Some (total xs / inject_Z (Z.of_nat (List.length xs)))
  end.

(** [Series.var()], with the default [ddof=1]. *)
Definition series_var (xs : list Q) : option Q :=
  if (List.length xs <=? 1)%nat then None
  else
    let avg := total xs / inject_Z (Z.of_nat (List.length xs)) in
    Some (total (List.map (fun x => (avg - x) * (avg - x)) xs)
          / inject_Z (Z.of_nat (List.length xs) - 1)).

(** [get_sentiment_summary(df)]; the entries of the [dict] are evaluated in
    the order they are written. *)
Definition get_sentiment_summary (df : DataFrame) : outcome summary :=
  match df_getitem df (u "情感分类") with
  | Raise e => Fails e
  | Ok labels =>
      match df_getitem df (u "情感分数") with
      | Raise e => Fails e
      | Ok scores =>
          match numbers scores with
          | None => NotNumeric
          | Some xs =>
              Returns {| positive_count := count_equal labels (u "积极");
                         negative_count := count_equal labels (u "消极");
                         neutral_count := count_equal labels (u "中性");
                         mean_score := series_mean xs;
                         score_variance := series_var xs |}
          end
      end
  end.

End SentimentAnalyzer.

(* ================================================================== *)
(** * [text_mining.py]: class [TextMiner] *)
(* ================================================================== *)

Module TextMiner.

(** The names bound at module level by the [import] statements (lines
    6-10) and the two definitions of [text_mining.py]. *)
Definition module_globals : list string :=
  [ "pd"; "jieba"; "Counter"; "re"; "TextMiner"; "main" ]%string.

(** The built-in names the module reads. *)
Definition builtins : list string :=
  [ "set"; "open"; "print"; "isinstance"; "str"; "len" ]%string.

(** Reading a global name: bound by the module, else a built-in, else
    [NameError]. *)
Definition load_name (name : string) : res unit :=
  if existsb (String.eqb name) module_globals then Ok tt
  else if existsb (String.eqb name) builtins then Ok tt
  else Raise (NameError name).

(** A file as [load_stopwords] sees it: [open] fails, or it yields lines,
    where [None] is a line whose bytes are not UTF-8. *)
Inductive file : Type :=
| Unreadable
| Lines (ls : list (option pystr)).

(** The files that exist, by path. *)
Definition filesystem : Type := pystr -> option file.

(** [os.path.exists(p)]. *)
Definition path_exists (fs : filesystem) (p : pystr) : bool :=
  match fs p with Some _ => true | None => false end.

(** [open(p, 'r', encoding='utf-8')]: the lines of the file. *)
Definition open_file (fs : filesystem) (p : pystr) : res (list (option pystr)) :=
  match fs p with
  | Some (Lines ls) => Ok ls
  | _ => Raise OSError
  end.

Section WithUnicode.
Context `{Unicode}.

Fixpoint lstrip (s : pystr) : pystr :=
  match s with
  | [] => []
  | c :: r => if isspace c then lstrip r else s
  end.

(** [s.strip()]. *)
Definition strip (s : pystr) : pystr := rev (lstrip (rev (lstrip s))).

(** [s.isdigit()]: at least one character, and all of them digits. *)
Definition str_isdigit (s : pystr) : bool :=
  match s with
  | [] => false
  | _ => forallb isdigit s
  end.

(** [stopwords.add(word)] on a set kept as a duplicate-free list. *)
Definition set_add (word : pystr) (s : list pystr) : list pystr :=
  if mem word s then s else s ++ [word].

Definition set_update (s : list pystr) (words : list pystr) : list pystr :=
  fold_left (fun acc w => set_add w acc) words s.

Definition base_stopwords : list pystr := List.map u
  [ "的"; "了"; "在"; "是"; "我"; "有"; "和"; "就";
    "不"; "人"; "都"; "一"; "一个"; "上"; "也"; "很";
    "到"; "说"; "要"; "去"; "你"; "会"; "着"; "没有";
    "看"; "好"; "自己"; "这"; "这个"; "也" ]%string.

(** The [for line in f] loop; [false] when a line could not be decoded,
    which leaves the loop through the [except] clause. *)
Fixpoint read_lines (ls : list (option pystr)) (stopwords : list pystr)
    : list pystr * bool :=
  match ls with
  | [] => (stopwords, true)
  | None :: _ => (stopwords, false)
  | Some line :: r =>
      let word := strip line in
      read_lines r (match word with
                    | [] => stopwords
                    | _ => set_add word stopwords
                    end)
  end.

(** The warning printed by the [except] clause. *)
Definition warning (filepath : pystr) : pystr :=
  u "警告：无法加载停用词文件 " ++ filepath.

(** [load_stopwords(filepath)]: the stopword set and what was printed.
    [filepath] is [None] or a string.  The condition
    [filepath and os.path.exists(filepath)] reads the global [os] when
    [filepath] is truthy, before the [try] block is entered; inside the
    block every exception ends in the warning, with the words added so far
    kept. *)
Definition load_stopwords (fs : filesystem) (filepath : option pystr)
    : res (list pystr * list pystr) :=
  let stopwords := set_update [] base_stopwords in
  match filepath with
  | None | Some [] => Ok (stopwords, [])
  | Some p =>
      _ <- load_name "os" ;;
      if path_exists fs p then
        match open_file fs p with
        | Ok ls =>
            let '(stopwords, completed) := read_lines ls stopwords in
            Ok (stopwords, if completed then [] else [warning p])
        | Raise _ => Ok (stopwords, [warning p])
        end
      else Ok (stopwords, [])
  end.

(** The attribute set by [__init__]. *)
Record miner : Type := { stopwords : list pystr }.

(** [TextMiner(stopwords_file)]. *)
Definition init `{Tokenizer} (fs : filesystem) (stopwords_file : option pystr)
    : res (miner * list pystr) :=
  loaded <- load_stopwords fs stopwords_file ;;
  _ <- initialize ;;
  Ok ({| stopwords := fst loaded |}, snd loaded).

(** [re.sub(r'\s+', ' ', text)]. *)
Fixpoint collapse_spaces (in_run : bool) (s : pystr) : pystr :=
  match s with
  | [] => []
  | c :: r =>
      if isspace c
      then (if in_run then collapse_spaces true r else 32%N :: collapse_spaces true r)
      else c :: collapse_spaces false r
  end.

(** The characters kept by [re.sub(r'[^\w一-鿿\s]', '', text)]. *)
Definition kept_char (c : N) : bool :=
  isword c || ((19968 <=? c) && (c <=? 40959))%N || isspace c.

Definition clean_text (text : pyval) : pystr :=
  match text with
  | VStr s => strip (collapse_spaces false (filter kept_char s))
  | _ => []
  end.

(** The result [dict] of [analyze_comments]. *)
Record mining_result : Type := {
  top_words : counter;
  total_words : nat;
  unique_words : nat;
  all_word_counts : counter
}.

Section WithTokenizer.
Context `{Tokenizer} `{NumFormat}.

(** The test of lines 97-99 on a stripped token. *)
Definition retained (self : miner) (word : pystr) : bool :=
  (2 <=? List.length word)%nat
  && negb (mem word (stopwords self))
  && negb (str_isdigit word).

(** The inner loop of lines 94-100 for one comment. *)
Definition comment_words (self : miner) (text : pyval) : list pystr :=
  filter (retained self) (List.map strip (cut (py_str text))).

(** [analyze_comments(df, text_column, top_n)]; [None] is the empty
    [dict] returned when there is no cleaned text. *)
Definition analyze_comments (self : miner) (df : DataFrame)
    (text_column : pystr) (top_n : nat) : res (option mining_result) :=
  cells <- df_getitem df text_column ;;
  let all_text := join (u " ") (List.map py_str (dropna cells)) in
  let cleaned_text := clean_text (VStr all_text) in
  match cleaned_text with
  | [] => Ok None
  | _ =>
      let words := flat_map (comment_words self) (dropna cells) in
      let word_counts := Counter words in
      let top_words := most_common word_counts top_n in
      Ok (Some {| top_words := top_words;
                  total_words := List.length words;
                  unique_words := List.length word_counts;
                  all_word_counts := word_counts |})
  end.

(** [generate_wordcloud_data(df, text_column)]: the words counted at least
    twice, in the order of the frequency table. *)
Definition generate_wordcloud_data (self : miner) (df : DataFrame)
    (text_column : pystr) : res counter :=
  word_counts <- analyze_comments self df text_column 100 ;;
  match word_counts with
  | Some r => Ok (filter (fun wc => (2 <=? snd wc)%nat) (all_word_counts r))
  | None => Ok []
  end.

(** One entry of [hot_topics]; the source keys are 关键词, 出现次数,
    相关评论数 and 示例评论. *)
Record HotTopic : Type := {
  keyword : pystr;
  occurrence_count : nat;
  related_comment_count : nat;
  sample_comments : list pyval
}.

Section WithRegex.
Context `{Regex}.

Definition isnull (v : pyval) : bool := negb (notna v).

(** [cells.str.contains(pat, na=False)].  The [.str] accessor wants
    string data: it raises [AttributeError] on a column whose values are
    all numbers ([find_hot_topics] never reaches it with a column of
    missing values only, which gives no word to look for).
    [regex=True] is the default of [contains], so [pat] is compiled
    and searched for; a cell that is not a string gives [NaN], which
    [na=False] turns into [False]. *)
Definition str_contains (cells : list pyval) (pat : pystr) : res (list bool) :=
  if existsb isinstance_str cells || forallb isnull cells then
    p <- re_compile pat ;;
    Ok (List.map (fun v => match v with
                           | VStr s => re_search p s
                           | _ => false
                           end) cells)
  else Raise AttributeError.

(** [df[mask][text_column]]: the cells of the rows selected by a
    boolean mask. *)
Fixpoint select (A : Type) (mask : list bool) (cells : list A) : list A :=
  match mask, cells with
  | b :: mask', c :: cells' =>
      if b then c :: select mask' cells' else select mask' cells'
  | _, _ => []
  end.

(** The loop of lines 146-158 over [top_words]. *)
Fixpoint topics_loop (cells : list pyval) (min_count : Z) (tops : counter)
    : res (list HotTopic) :=
  match tops with
  | [] => Ok []
  | (word, count) :: r =>
      if (min_count <=? Z.of_nat count)%Z then
        mask <- str_contains cells word ;;
        let related_comments := select mask cells in
        let topic := {| keyword := word;
                        occurrence_count := count;
                        related_comment_count := List.length related_comments;
                        sample_comments := firstn 3 related_comments |} in
        rest <- topics_loop cells min_count r ;;
        Ok (topic :: rest)
      else topics_loop cells min_count r
  end.

(** [find_hot_topics(df, text_column, min_count)]. *)
Definition find_hot_topics (self : miner) (df : DataFrame)
    (text_column : pystr) (min_count : Z) : res (list HotTopic) :=
  word_counts <- analyze_comments self df text_column 50 ;;
  match word_counts with
  | None => Ok []
  | Some r =>
      cells <- df_getitem df text_column ;;
      topics_loop cells min_count (top_words r)
  end.

End WithRegex.
End WithTokenizer.
End WithUnicode.

End TextMiner.

(* ================================================================== *)
(** * A concrete runtime for the worked examples *)
(* ================================================================== *)

Module Sample.

(** Segmentation at U+0020: the example comments are written with their
    tokens separated by spaces. *)
Fixpoint split_spaces (cur : pystr) (s : pystr) : list pystr :=
  match s with
  | [] => match cur with [] => [] | _ => [rev cur] end
  | c :: r =>
      if (c =? 32)%N
      then match cur with [] => split_spaces [] r | _ => rev cur :: split_spaces [] r end
      else split_spaces (c :: cur) r
  end.

#[export] Instance space_tokenizer : Tokenizer := {|
  cut := split_spaces [];
  initialize := Ok tt
|}.

(** The character classes on the code points the examples use: the
    white space of [str.isspace], the decimal digits and letters of Basic
    Latin, the underscore and the CJK ideographs. *)
Definition whitespace : list N :=
  [ 9; 10; 11; 12; 13; 28; 29; 30; 31; 32; 133; 160; 5760; 8192; 8193;
    8194; 8195; 8196; 8197; 8198; 8199; 8200; 8201; 8202; 8232; 8233;
    8239; 8287; 12288 ]%N.

Definition between (lo hi c : N) : bool := ((lo <=? c) && (c <=? hi))%N.

#[export] Instance basic_unicode : Unicode := {|
  isspace := fun c => existsb (N.eqb c) whitespace;
  isdigit := between 48 57;
  isword := fun c => between 48 57 c || between 65 90 c || between 97 122 c
                     || (c =? 95)%N || between 19968 40959 c
|}.

(** The example tables hold strings only, so no number is ever printed. *)
#[export] Instance no_numbers : NumFormat := {|
  num_str := fun _ => []
|}.

(** The [re] patterns made of ordinary characters and [.], which matches
    any character but a line feed.  A pattern that uses another special
    character is outside this fragment and is refused here. *)
Definition special : list N :=
  [ 92; 94; 36; 42; 43; 63; 123; 125; 91; 93; 40; 41; 124 ]%N.

Definition atom_matches (a c : N) : bool :=
  if (a =? 46)%N then negb (c =? 10)%N else (a =? c)%N.

Fixpoint match_here (pat s : pystr) : bool :=
  match pat, s with
  | [], _ => true
  | a :: pat', c :: s' => atom_matches a c && match_here pat' s'
  | _ :: _, [] => false
  end.

Fixpoint search (pat s : pystr) : bool :=
  match_here pat s ||
  match s with
  | [] => false
  | _ :: s' => search pat s'
  end.

#[export] Instance dot_regex : Regex := {|
  pattern := pystr;
  re_compile := fun pat =>
    if existsb (fun c => existsb (N.eqb c) special) pat then Raise ReError else Ok pat;
  re_search := search
|}.

(** A table with the single column 内容. *)
Definition comments (texts : list string) : DataFrame :=
  [ (u "内容", List.map (fun s => VStr (u s)) texts) ].

Definition one_table (df : DataFrame) : store := fun _ => df.

Definition default_miner : TextMiner.miner :=
  {| TextMiner.stopwords := TextMiner.set_update [] TextMiner.base_stopwords |}.

(** A table with one comment, and the store after it has been scored:
    the first assignment adds the score, the second the label. *)
Definition praise : DataFrame := comments [ "很 好"%string ].

Definition praise_score : Q :=
  SentimentAnalyzer.score_words SentimentAnalyzer.init [ u "很"; u "好" ].

Definition praise_with_score : DataFrame :=
  [ (u "内容", [ VStr (u "很 好") ]);
    (u "情感分数", [ VNum praise_score ]) ].

Definition praise_scored : DataFrame :=
  [ (u "内容", [ VStr (u "很 好") ]);
    (u "情感分数", [ VNum praise_score ]);
    (u "情感分类", [ VStr (u "积极") ]) ].

Definition store_after_scoring : store :=
  store_set (store_set (one_table praise) 0%nat praise_with_score) 0%nat praise_scored.

(** Two comments about a video, and what mining them with [top_n = 2]
    gives. *)
Definition video_comments : DataFrame :=
  comments [ "评分 3.5 视频"; "第 325 集 视频" ]%string.

Definition video_mined : TextMiner.mining_result := {|
  TextMiner.top_words := [ (u "视频", 2%nat); (u "评分", 1%nat) ];
  TextMiner.total_words := 4;
  TextMiner.unique_words := 3;
  TextMiner.all_word_counts :=
    [ (u "评分", 1%nat); (u "3.5", 1%nat); (u "视频", 2%nat) ]
|}.

(** The same comments mined with [top_n = 50], and their hot topics for
    [min_count = 2]. *)
Definition video_ranked : TextMiner.mining_result := {|
  TextMiner.top_words := [ (u "视频", 2%nat); (u "评分", 1%nat); (u "3.5", 1%nat) ];
  TextMiner.total_words := 4;
  TextMiner.unique_words := 3;
  TextMiner.all_word_counts :=
    [ (u "评分", 1%nat); (u "3.5", 1%nat); (u "视频", 2%nat) ]
|}.

Definition video_topics : list TextMiner.HotTopic :=
  [ {| TextMiner.keyword := u "视频";
       TextMiner.occurrence_count := 2;
       TextMiner.related_comment_count := 2;
       TextMiner.sample_comments :=
         [ VStr (u "评分 3.5 视频"); VStr (u "第 325 集 视频") ] |} ].


End Sample.

(* ================================================================== *)
(** * Statements that the code is checked against *)
(* ================================================================== *)

Module Statements.
Import SentimentAnalyzer.

Definition is_marker (self : analyzer) (w : pystr) : bool :=
  mem w (negation_words self).

Definition is_sentiment (self : analyzer) (w : pystr) : bool :=
  mem w (positive_words self) || mem w (negative_words self).

(** The [word_score] of a sentiment word. *)
Definition polarity (self : analyzer) (w : pystr) : Q :=
  if mem w (positive_words self) then 1 else -1.

(** "The negation state persists across the next token only": a token [w]
    that comes two or more positions after [marker], with no marker in
    between, is processed as it is with the flag down. *)
Definition negation_spans_one_token (self : analyzer)
    (before : list pystr) (marker next : pystr) (between : list pystr)
    (w : pystr) : Prop :=
  is_marker self marker = true ->
  forallb (fun x => negb (is_marker self x)) (next :: between) = true ->
  let st := run_loop self (before ++ marker :: next :: between) (0, false) in
  loop_body self st w = loop_body self (fst st, false) w.

(** "A run of two or more markers yields the same score as a single
    marker in that position." *)
Definition marker_run_same_score (self : analyzer)
    (before markers : list pystr) (marker : pystr) (after : list pystr) : Prop :=
  (2 <= List.length markers)%nat ->
  forallb (is_marker self) (marker :: markers) = true ->
  score_words self (before ++ markers ++ after)
  == score_words self (before ++ marker :: after).

(** "The input collection is unchanged after the call." *)
Definition input_unchanged `{Tokenizer} (self : analyzer) (h : store) (df : ref)
    (text_column : pystr) : Prop :=
  forall h' out,
    analyze_comments self h df text_column = Ok (h', out) -> h' df = h df.

(** The lexicon with every intensity weight replaced by [1.0]. *)
Definition unit_weights (self : analyzer) : analyzer := {|
  positive_words := positive_words self;
  negative_words := negative_words self;
  intensity_words := List.map (fun kv => (fst kv, 1.0)) (intensity_words self);
  negation_words := negation_words self
|}.

(** No key of the intensity table is a positive or a negative word. *)
Definition modifiers_apart (self : analyzer) : bool :=
  forallb (fun kv => negb (is_sentiment self (fst kv))) (intensity_words self).

(** "The comments whose raw text field contains the keyword as a
    substring", in corpus order. *)
Definition substring_matches (cells : list pyval) (word : pystr) : list pyval :=
  filter (fun v => match v with VStr s => contains word s | _ => false end) cells.

(** The comments in which a compiled pattern is found, in corpus order. *)
Definition pattern_matches `{Regex} (p : pattern) (cells : list pyval) : list pyval :=
  filter (fun v => match v with VStr s => re_search p s | _ => false end) cells.

End Statements.

(* ================================================================== *)
(** * Notions used to describe the results *)
(* ================================================================== *)

Module Notions.

(** The column names of a table. *)
Definition columns (df : DataFrame) : list pystr := List.map fst df.

(** How many times [w] occurs in a list of tokens. *)
Definition occurrences (w : pystr) (ws : list pystr) : nat :=
  List.length (filter (pystr_eqb w) ws).

(** The distinct tokens of a list, in the order of their first occurrence. *)
Fixpoint first_seen (ws : list pystr) : list pystr :=
  match ws with
  | [] => []
  | w :: r => w :: filter (fun x => negb (pystr_eqb w x)) (first_seen r)
  end.

(** The entries of a counter that have the count [n], in their order. *)
Definition with_count (n : nat) (c : counter) : counter :=
  filter (fun x => (snd x =? n)%nat) c.

(** The counts never increase along the list. *)
Fixpoint descending (c : counter) : Prop :=
  match c with
  | [] => True
  | x :: r => (forall y, In y r -> (snd y <= snd x)%nat) /\ descending r
  end.

Section Whitespace.
Context `{Unicode}.

(** The string does not begin with white space. *)
Definition starts_clean (s : pystr) : Prop :=
  match s with
  | [] => True
  | c :: _ => isspace c = false
  end.

(** No two neighbouring characters are both white space. *)
Fixpoint single_spaced (s : pystr) : Prop :=
  match s with
  | [] => True
  | c :: r => (isspace c = true -> starts_clean r) /\ single_spaced r
  end.

(** A character that [clean_text] can leave in its result: one it keeps
    that is not white space, or the space U+0020 it puts for a run. *)
Definition clean_char (c : N) : Prop :=
  (isspace c = false /\ TextMiner.kept_char c = true) \/ c = 32%N.

End Whitespace.

(** A token that is neither a negation marker nor a sentiment word. *)
Definition neutral (self : SentimentAnalyzer.analyzer) (w : pystr) : bool :=
  negb (Statements.is_marker self w) && negb (Statements.is_sentiment self w).

Section Scoring.
Import SentimentAnalyzer.
Context `{Tokenizer}.

(** The two columns that [SentimentAnalyzer.analyze_comments] computes from
    the cells of the text column, and the table with both assigned. *)
Definition score_column (self : analyzer) (texts : list pyval) : list pyval :=
  List.map (fun v => VNum (analyze_sentence self v)) texts.

Definition label_column (self : analyzer) (texts : list pyval) : list pyval :=
  List.map (fun v => VStr (classify_sentiment (analyze_sentence self v))) texts.

Definition scored (self : analyzer) (df : DataFrame) (texts : list pyval) : DataFrame :=
  df_setitem (df_setitem df (u "情感分数") (score_column self texts))
             (u "情感分类") (label_column self texts).

End Scoring.

End Notions.

(* ================================================================== *)
(** * Basic facts about the Python values *)
(* ================================================================== *)

Lemma pystr_eqb_eq : forall a b, pystr_eqb a b = true <-> a = b.
Proof.
  induction a as [|x a IH]; destruct b as [|y b]; simpl; split;
    try discriminate; try reflexivity.
  - intros E. apply andb_true_iff in E as [E1 E2].
    apply N.eqb_eq in E1. apply IH in E2. congruence.
  - intros E. injection E as -> ->.
    apply andb_true_iff. split; [apply N.eqb_refl | now apply IH].
Qed.

Lemma pystr_eqb_refl : forall a, pystr_eqb a a = true.
Proof. intros a. now apply pystr_eqb_eq. Qed.

Lemma pystr_eqb_neq : forall a b, pystr_eqb a b = false <-> a <> b.
Proof.
  intros a b. split.
  - intros E Heq. apply pystr_eqb_eq in Heq. congruence.
  - intros Hne. destruct (pystr_eqb a b) eqn:E; [|reflexivity].
    apply pystr_eqb_eq in E. contradiction.
Qed.

Lemma mem_In : forall w s, mem w s = true <-> In w s.
Proof.
  intros w s. unfold mem. rewrite existsb_exists. split.
  - intros [x [Hin E]]. apply pystr_eqb_eq in E. now subst.
  - intros Hin. exists w. split; [assumption | apply pystr_eqb_refl].
Qed.

Lemma Qltb_lt : forall x y, Qltb x y = true <-> x < y.
Proof.
  intros x y. unfold Qltb. rewrite Qlt_alt.
  destruct (x ?= y); split; intros E; try reflexivity; discriminate.
Qed.

Lemma Qltb_ge : forall x y, Qltb x y = false <-> y <= x.
Proof.
  intros x y. split.
  - intros E. apply Qnot_lt_le. intros Hlt. apply Qltb_lt in Hlt. congruence.
  - intros Hle. destruct (Qltb x y) eqn:E; [|reflexivity].
    apply Qltb_lt in E. exfalso. now apply (Qle_not_lt y x).
Qed.

(** [max(-1, min(1, x))] lies between [-1] and [1]. *)
Lemma clamp_bounds : forall x, -1 <= py_max (-1) (py_min 1 x) <= 1.
Proof.
  intros x. unfold py_max, py_min.
  destruct (Qltb x 1) eqn:E1.
  - apply Qltb_lt in E1.
    destruct (Qltb (-1) x) eqn:E2.
    + apply Qltb_lt in E2. split; now apply Qlt_le_weak.
    + split; [apply Qle_refl | discriminate].
  - destruct (Qltb (-1) 1) eqn:E2.
    + split; [discriminate | apply Qle_refl].
    + split; [apply Qle_refl | discriminate].
Qed.

(* ================================================================== *)
(** * The sentiment scorer *)
(* ================================================================== *)

Module SentimentFacts.
Import SentimentAnalyzer Statements.

Lemma run_loop_app : forall self ws1 ws2 st,
  run_loop self (ws1 ++ ws2) st = run_loop self ws2 (run_loop self ws1 st).
Proof. intros. unfold run_loop. apply fold_left_app. Qed.

Lemma run_loop_cons : forall self w ws st,
  run_loop self (w :: ws) st = run_loop self ws (loop_body self st w).
Proof. reflexivity. Qed.

(** A marker raises the flag and leaves the score alone, whatever the
    flag was. *)
Lemma loop_body_marker : forall self score negation w,
  is_marker self w = true ->
  loop_body self (score, negation) w = (score, true).
Proof.
  intros self score negation w Hm. unfold is_marker in Hm.
  unfold loop_body. now rewrite Hm.
Qed.

(** A token that is neither a marker nor a sentiment word changes
    nothing. *)
Lemma loop_body_neutral : forall self st w,
  is_marker self w = false -> is_sentiment self w = false ->
  loop_body self st w = st.
Proof.
  intros self [score negation] w Hm Hs.
  unfold is_marker in Hm. unfold is_sentiment in Hs.
  apply orb_false_iff in Hs as [Hp Hn].
  unfold loop_body. now rewrite Hm, Hp, Hn.
Qed.

(** A sentiment word adds its polarity times its own intensity entry,
    flipped when the flag is up, and lowers the flag. *)
Lemma loop_body_sentiment : forall self score negation w,
  is_marker self w = false -> is_sentiment self w = true ->
  loop_body self (score, negation) w =
    (score + (if negation then - polarity self w else polarity self w)
             * dict_get (intensity_words self) w 1.0,
     false).
Proof.
  intros self score negation w Hm Hs.
  unfold is_marker in Hm. unfold is_sentiment in Hs. unfold polarity.
  unfold loop_body. rewrite Hm.
  destruct (mem w (positive_words self)) eqn:Hp.
  - now destruct negation.
  - simpl in Hs. rewrite Hs. now destruct negation.
Qed.

(** Without a marker the flag, once down, stays down. *)
Lemma flag_stays_down : forall self ws score,
  forallb (fun x => negb (is_marker self x)) ws = true ->
  snd (run_loop self ws (score, false)) = false.
Proof.
  intros self ws. induction ws as [|w ws IH]; intros score Hall; [reflexivity|].
  simpl in Hall. apply andb_true_iff in Hall as [Hw Hall].
  apply negb_true_iff in Hw.
  rewrite run_loop_cons.
  destruct (is_sentiment self w) eqn:Hs.
  - rewrite loop_body_sentiment by assumption. now apply IH.
  - rewrite loop_body_neutral by assumption. now apply IH.
Qed.

(** Neutral tokens leave the loop state as it is. *)
Lemma run_loop_neutral : forall self ws st,
  forallb (fun x => negb (is_marker self x) && negb (is_sentiment self x)) ws = true ->
  run_loop self ws st = st.
Proof.
  intros self ws. induction ws as [|w ws IH]; intros st Hall; [reflexivity|].
  simpl in Hall. apply andb_true_iff in Hall as [Hw Hall].
  apply andb_true_iff in Hw as [Hm Hs].
  apply negb_true_iff in Hm. apply negb_true_iff in Hs.
  rewrite run_loop_cons, loop_body_neutral by assumption. now apply IH.
Qed.

(** A non-empty run of markers acts as one marker. *)
Lemma run_loop_markers : forall self ms score negation,
  ms <> [] -> forallb (is_marker self) ms = true ->
  run_loop self ms (score, negation) = (score, true).
Proof.
  intros self ms. induction ms as [|m ms IH]; intros score negation Hne Hall.
  - contradiction.
  - simpl in Hall. apply andb_true_iff in Hall as [Hm Hall].
    rewrite run_loop_cons, loop_body_marker by assumption.
    destruct ms as [|m' ms']; [reflexivity|].
    apply IH; [discriminate | assumption].
Qed.

(** C1: for every input of the scorer (a string, the empty string, a value
    that is not a string, a text with no token) the returned score lies
    in the closed interval from -1 to 1. *)
Theorem analyze_sentence_in_unit_interval :
  forall (T : Tokenizer) (self : analyzer) (text : pyval),
    -1 <= analyze_sentence self text <= 1.
Proof.
  intros T self text. destruct text as [s| |]; simpl;
    try (split; discriminate).
  unfold score_words.
  destruct (cut s) as [|w ws] eqn:E.
  - simpl. split; discriminate.
  - change (0 <? List.length (w :: ws))%nat with true. cbv iota.
    apply clamp_bounds.
Qed.

(** C2, counterexample: in 不 视频 好 the word 好 stands two positions
    after the marker 不 with no marker in between, and it is still
    flipped, because 视频 is not a sentiment word and leaves the flag up. *)
Lemma negation_outlives_next_token :
  ~ negation_spans_one_token init [] (u "不") (u "视频") [] (u "好").
Proof.
  unfold negation_spans_one_token. intros Hclaim.
  specialize (Hclaim eq_refl eq_refl).
  vm_compute in Hclaim. discriminate Hclaim.
Qed.

(** C2, as the code has it: a marker flips the next sentiment word,
    however many tokens that are neither markers nor sentiment words lie
    between the two; that word lowers the flag, and the tokens after it
    are processed with the flag down until the next marker. *)
Theorem negation_applies_to_next_sentiment_word :
  forall (self : analyzer) (marker : pystr) (between : list pystr) (w : pystr)
         (after : list pystr) (score : Q) (negation : bool),
    is_marker self marker = true ->
    forallb (fun x => negb (is_marker self x) && negb (is_sentiment self x))
            between = true ->
    is_marker self w = false -> is_sentiment self w = true ->
    forallb (fun x => negb (is_marker self x)) after = true ->
    run_loop self (marker :: between ++ [w]) (score, negation)
      = (score + - polarity self w * dict_get (intensity_words self) w 1.0, false)
    /\ snd (run_loop self (marker :: between ++ w :: after) (score, negation)) = false.
Proof.
  intros self marker between w after score negation Hmark Hbetween Hw Hs Hafter.
  assert (Hprefix : run_loop self (marker :: between) (score, negation) = (score, true)).
  { rewrite run_loop_cons, loop_body_marker by assumption.
    now apply run_loop_neutral. }
  split.
  - change (marker :: between ++ [w]) with ((marker :: between) ++ [w]).
    rewrite run_loop_app, Hprefix, run_loop_cons.
    now rewrite loop_body_sentiment by assumption.
  - change (marker :: between ++ w :: after) with ((marker :: between) ++ w :: after).
    rewrite run_loop_app, Hprefix, run_loop_cons.
    rewrite loop_body_sentiment by assumption.
    now apply flag_stays_down.
Qed.

Lemma negation_applies_to_next_sentiment_word_witness :
  run_loop init (u "不" :: [u "视频"] ++ [u "好"]) (0, false)
    = (0 + - polarity init (u "好") * dict_get (intensity_words init) (u "好") 1.0, false)
  /\ snd (run_loop init (u "不" :: [u "视频"] ++ u "好" :: [u "视频"]) (0, false)) = false.
Proof.
  apply (@negation_applies_to_next_sentiment_word
           init (u "不") [u "视频"] (u "好") [u "视频"] 0 false);
    vm_compute; reflexivity.
Defined.

(** On a sentiment word the intensity entry is the default [1.0] when no
    modifier is a sentiment word. *)
Lemma intensity_of_sentiment_word : forall self w,
  modifiers_apart self = true -> is_sentiment self w = true ->
  dict_get (intensity_words self) w 1.0 = 1.0.
Proof.
  intros self w. unfold modifiers_apart.
  induction (intensity_words self) as [|[k v] d IH]; intros Hapart Hs; [reflexivity|].
  simpl in Hapart. apply andb_true_iff in Hapart as [Hk Hapart].
  simpl. destruct (pystr_eqb k w) eqn:E.
  - apply pystr_eqb_eq in E. subst k. rewrite Hs in Hk. discriminate.
  - now apply IH.
Qed.

Lemma unit_weights_get : forall (d : list (pystr * Q)) w,
  dict_get (List.map (fun kv => (fst kv, 1.0)) d) w 1.0 = 1.0.
Proof.
  induction d as [|[k v] d IH]; intros w; [reflexivity|].
  simpl. destruct (pystr_eqb k w); [reflexivity | apply IH].
Qed.

Lemma loop_body_unit_weights : forall self st w,
  modifiers_apart self = true ->
  loop_body self st w = loop_body (unit_weights self) st w.
Proof.
  intros self [score negation] w Hapart.
  destruct (is_marker self w) eqn:Hm.
  - rewrite !loop_body_marker; auto.
  - destruct (is_sentiment self w) eqn:Hs.
    + rewrite (@loop_body_sentiment self) by assumption.
      rewrite (@loop_body_sentiment (unit_weights self)) by assumption.
      rewrite intensity_of_sentiment_word by assumption.
      cbn [unit_weights intensity_words]. now rewrite unit_weights_get.
    + now rewrite !loop_body_neutral.
Qed.

Lemma run_loop_unit_weights : forall self ws st,
  modifiers_apart self = true ->
  run_loop self ws st = run_loop (unit_weights self) ws st.
Proof.
  intros self ws. induction ws as [|w ws IH]; intros st Hapart; [reflexivity|].
  rewrite !run_loop_cons, <- loop_body_unit_weights by assumption.
  now apply IH.
Qed.

(** C3: under the built-in lexicon the intensity weights never act: for
    every input text the score computed with the intensity table equals
    the score computed with every weight replaced by 1.0. *)
Theorem intensity_weighting_is_noop :
  forall (T : Tokenizer) (text : pyval),
    analyze_sentence init text = analyze_sentence (unit_weights init) text.
Proof.
  intros T text. destruct text as [s| |]; try reflexivity.
  simpl. unfold score_words.
  now rewrite <- run_loop_unit_weights by (vm_compute; reflexivity).
Qed.

(** C4: a score is classified 积极 (positive) exactly when it is above
    0.1, 消极 (negative) exactly when it is below -0.1, and 中性 (neutral)
    otherwise; 0.1 and -0.1 are neutral, 0.10001 is positive and -0.10001
    is negative. *)
Theorem classify_sentiment_thresholds :
  forall score : Q,
    (classify_sentiment score = u "积极" <-> 0.1 < score)
    /\ (classify_sentiment score = u "消极" <-> score < -0.1)
    /\ (classify_sentiment score = u "中性" <-> ~ 0.1 < score /\ ~ score < -0.1)
    /\ classify_sentiment 0.1 = u "中性"
    /\ classify_sentiment (-0.1) = u "中性"
    /\ classify_sentiment 0.10001 = u "积极"
    /\ classify_sentiment (-0.10001) = u "消极".
Proof.
  intros score. unfold classify_sentiment.
  destruct (Qltb 0.1 score) eqn:E1;
    [apply Qltb_lt in E1 | apply Qltb_ge in E1];
    (destruct (Qltb score (-0.1)) eqn:E2;
     [apply Qltb_lt in E2 | apply Qltb_ge in E2]);
    repeat split;
    try (vm_compute; reflexivity);
    intros X;
    first [ reflexivity
          | assumption
          | vm_compute in X; discriminate X
          | match goal with
            | E : u _ = u _ |- _ => vm_compute in E; discriminate E
            end
          | destruct X; contradiction
          | exfalso; lra
          | split; intros Y; lra ].
Qed.

(** C10, counterexample: 不 不 好 and 不 好 do not get the same score.  The
    sum is -1 in both, but it is divided by the number of tokens, three in
    the first and two in the second. *)
Lemma marker_run_changes_score :
  ~ marker_run_same_score init [] [u "不"; u "不"] (u "不") [u "好"].
Proof.
  unfold marker_run_same_score. intros Hclaim.
  specialize (Hclaim (le_n 2) eq_refl).
  vm_compute in Hclaim. discriminate Hclaim.
Qed.

(** C10, as the code has it: a run of two or more markers leaves the loop
    in the same state as a single marker, with the same accumulated sum
    and the flag up, so a double negation does not cancel; the returned
    score is that sum divided by the number of tokens of the sentence
    with the run, and clamped. *)
Theorem marker_run_same_loop_state :
  forall (self : analyzer) (before markers : list pystr) (marker : pystr)
         (after : list pystr),
    (2 <= List.length markers)%nat ->
    forallb (is_marker self) (marker :: markers) = true ->
    run_loop self (before ++ markers ++ after) (0, false)
      = run_loop self (before ++ marker :: after) (0, false)
    /\ score_words self (before ++ markers ++ after)
       = py_max (-1) (py_min 1
           (fst (run_loop self (before ++ marker :: after) (0, false))
            / inject_Z (Z.of_nat (List.length (before ++ markers ++ after))))).
Proof.
  intros self before markers marker after Hlen Hall.
  simpl in Hall. apply andb_true_iff in Hall as [Hm Hms].
  assert (Hstate : run_loop self (before ++ markers ++ after) (0, false)
                   = run_loop self (before ++ marker :: after) (0, false)).
  { rewrite !run_loop_app.
    destruct (run_loop self before (0, false)) as [score negation].
    rewrite run_loop_markers; [|destruct markers; [inversion Hlen | discriminate]|assumption].
    now rewrite run_loop_cons, loop_body_marker. }
  split; [exact Hstate|].
  unfold score_words. rewrite Hstate.
  assert (Hpos : (0 <? List.length (before ++ markers ++ after))%nat = true).
  { apply Nat.ltb_lt. rewrite !length_app. lia. }
  now rewrite Hpos.
Qed.

Lemma marker_run_same_loop_state_witness :
  run_loop init ([] ++ [u "不"; u "不"] ++ [u "好"]) (0, false)
    = run_loop init ([] ++ u "不" :: [u "好"]) (0, false)
  /\ score_words init ([] ++ [u "不"; u "不"] ++ [u "好"])
     = py_max (-1) (py_min 1
         (fst (run_loop init ([] ++ u "不" :: [u "好"]) (0, false))
          / inject_Z (Z.of_nat (List.length ([] ++ [u "不"; u "不"] ++ [u "好"]))))).
Proof.
  apply (@marker_run_same_loop_state init [] [u "不"; u "不"] (u "不") [u "好"]).
  - simpl. lia.
  - vm_compute. reflexivity.
Defined.

Lemma store_set_same : forall h r df, store_set h r df r = df.
Proof. intros. unfold store_set. now rewrite Nat.eqb_refl. Qed.

Lemma store_set_other : forall h r df r', r' <> r -> store_set h r df r' = h r'.
Proof.
  intros h r df r' Hne. unfold store_set.
  apply Nat.eqb_neq in Hne. now rewrite Hne.
Qed.

Lemma df_get_set_same : forall df col cells,
  df_getitem (df_setitem df col cells) col = Ok cells.
Proof.
  induction df as [|[name old] df IH]; intros col cells; simpl.
  - now rewrite pystr_eqb_refl.
  - destruct (pystr_eqb name col) eqn:E; simpl; rewrite E; [reflexivity | apply IH].
Qed.

Lemma df_get_set_other : forall df col cells col',
  col' <> col ->
  df_getitem (df_setitem df col cells) col' = df_getitem df col'.
Proof.
  induction df as [|[name old] df IH]; intros col cells col' Hne; simpl.
  - assert (E : pystr_eqb col col' = false) by (apply pystr_eqb_neq; congruence).
    now rewrite E.
  - destruct (pystr_eqb name col) eqn:E; simpl.
    + apply pystr_eqb_eq in E. subst name.
      assert (E : pystr_eqb col col' = false) by (apply pystr_eqb_neq; congruence).
      now rewrite E.
    + destruct (pystr_eqb name col'); [reflexivity | now apply IH].
Qed.

(** C6, counterexample: after scoring a table with the single column 内容
    the caller's table has three columns. *)
Lemma analyze_comments_changes_input :
  ~ @input_unchanged Sample.space_tokenizer init
      (Sample.one_table (Sample.comments ["很 好"%string])) 0%nat (u "内容").
Proof.
  unfold input_unchanged. intros Hclaim.
  pose proof (Hclaim _ _ eq_refl) as E.
  vm_compute in E. discriminate E.
Qed.

(** C6, as the code has it: the call works on the caller's table.  It
    returns the reference it was given; in the store that table has the
    column 情感分数 holding the score of each text and the column
    情感分类 holding its label, row by row in input order; every other
    column of the table and every other table are unchanged. *)
Theorem analyze_comments_updates_in_place :
  forall (T : Tokenizer) (self : analyzer) (h : store) (df : ref)
         (text_column : pystr) (h' : store) (df' : ref) (counts : counter),
    analyze_comments self h df text_column = Ok (h', (df', counts)) ->
    df' = df
    /\ (forall r, r <> df -> h' r = h r)
    /\ (forall col, col <> u "情感分数" -> col <> u "情感分类" ->
          df_getitem (h' df) col = df_getitem (h df) col)
    /\ exists texts,
         df_getitem (h df) text_column = Ok texts
         /\ df_getitem (h' df) (u "情感分数")
            = Ok (List.map (fun v => VNum (analyze_sentence self v)) texts)
         /\ df_getitem (h' df) (u "情感分类")
            = Ok (List.map (fun v => VStr (classify_sentiment (analyze_sentence self v)))
                    texts).
Proof.
  intros T self h df text_column h' df' counts Hrun.
  unfold analyze_comments in Hrun.
  destruct (df_getitem (h df) text_column) as [texts|e] eqn:Htexts;
    [|discriminate Hrun].
  cbn [bind] in Hrun. cbv zeta in Hrun.
  rewrite !store_set_same in Hrun.
  rewrite (df_get_set_same (h df) (u "情感分数")) in Hrun. cbn [bind] in Hrun.
  rewrite !store_set_same in Hrun.
  rewrite (df_get_set_same _ (u "情感分类")) in Hrun. cbn [bind] in Hrun.
  injection Hrun as Hh Hdf _. subst h' df'.
  assert (Hne : u "情感分数" <> u "情感分类") by (vm_compute; discriminate).
  repeat split.
  - intros r Hr. now rewrite !store_set_other.
  - intros col H1 H2. rewrite store_set_same.
    now rewrite !df_get_set_other.
  - exists texts. split; [reflexivity|]. rewrite store_set_same. split.
    + rewrite df_get_set_other by assumption. apply df_get_set_same.
    + rewrite df_get_set_same. now rewrite List.map_map.
Qed.

Lemma analyze_comments_updates_in_place_witness :
  let h := Sample.one_table Sample.praise in
  let h' := Sample.store_after_scoring in
  0%nat = 0%nat
  /\ (forall r, r <> 0%nat -> h' r = h r)
  /\ (forall col, col <> u "情感分数" -> col <> u "情感分类" ->
        df_getitem (h' 0%nat) col = df_getitem (h 0%nat) col)
  /\ exists texts,
       df_getitem (h 0%nat) (u "内容") = Ok texts
       /\ df_getitem (h' 0%nat) (u "情感分数")
          = Ok (List.map
                  (fun v => VNum (@analyze_sentence Sample.space_tokenizer init v)) texts)
       /\ df_getitem (h' 0%nat) (u "情感分类")
          = Ok (List.map
                  (fun v => VStr (classify_sentiment
                                    (@analyze_sentence Sample.space_tokenizer init v)))
                  texts).
Proof.
  apply (@analyze_comments_updates_in_place Sample.space_tokenizer init
           (Sample.one_table Sample.praise) 0%nat (u "内容")
           Sample.store_after_scoring 0%nat [ (u "积极", 1%nat) ]).
  vm_compute. reflexivity.
Defined.

End SentimentFacts.

(* ================================================================== *)
(** * The text miner *)
(* ================================================================== *)

Module MinerFacts.
Import TextMiner Statements.

(** ** Counting *)

Lemma counter_add_sum : forall c w,
  list_sum (counter_values (counter_add c w)) = S (list_sum (counter_values c)).
Proof.
  unfold counter_values.
  induction c as [|[k n] c IH]; intros w; [reflexivity|].
  simpl. destruct (pystr_eqb k w); simpl; [reflexivity | rewrite IH; lia].
Qed.

Lemma counter_fold_sum : forall ws c,
  list_sum (counter_values (fold_left counter_add ws c))
  = (list_sum (counter_values c) + List.length ws)%nat.
Proof.
  induction ws as [|w ws IH]; intros c; simpl.
  - lia.
  - rewrite IH, counter_add_sum. lia.
Qed.

(** The counts of a [Counter] add up to the number of items counted. *)
Lemma Counter_sum : forall ws,
  list_sum (counter_values (Counter ws)) = List.length ws.
Proof. intros ws. unfold Counter. now rewrite counter_fold_sum. Qed.

Lemma counter_add_entry : forall c w k n,
  In (k, n) (counter_add c w) ->
  (k = w /\ (0 < n)%nat) \/ In (k, n) c.
Proof.
  induction c as [|[k' n'] c IH]; intros w k n Hin; simpl in Hin.
  - destruct Hin as [E|[]]. injection E as <- <-. left. split; [reflexivity | lia].
  - destruct (pystr_eqb k' w) eqn:E.
    + destruct Hin as [E'|Hin].
      * injection E' as <- <-. apply pystr_eqb_eq in E. left. split; [assumption | lia].
      * right. now right.
    + destruct Hin as [E'|Hin].
      * right. now left.
      * apply IH in Hin as [Hnew|Hold]; [now left | right; now right].
Qed.

Lemma counter_fold_entry : forall ws c k n,
  In (k, n) (fold_left counter_add ws c) ->
  (In k ws /\ (0 < n)%nat) \/ In (k, n) c.
Proof.
  induction ws as [|w ws IH]; intros c k n Hin; simpl in Hin.
  - now right.
  - apply IH in Hin as [[Hk Hn]|Hin].
    + left. split; [now right | assumption].
    + apply counter_add_entry in Hin as [[-> Hn]|Hin].
      * left. split; [now left | assumption].
      * now right.
Qed.

(** A key of a [Counter] is one of the items counted, and its count is
    at least one. *)
Lemma Counter_entry : forall ws k n,
  In (k, n) (Counter ws) -> In k ws /\ (0 < n)%nat.
Proof.
  intros ws k n Hin. unfold Counter in Hin.
  apply counter_fold_entry in Hin as [H|[]]. exact H.
Qed.

Lemma insert_desc_In : forall x l y, In y (insert_desc x l) <-> y = x \/ In y l.
Proof.
  intros x l. induction l as [|z l IH]; intros y; simpl.
  - intuition congruence.
  - destruct (snd x <? snd z)%nat; simpl; [rewrite IH|]; intuition congruence.
Qed.

Lemma sorted_desc_In : forall c y, In y (sorted_desc c) <-> In y c.
Proof.
  induction c as [|x c IH]; intros y; simpl; [reflexivity|].
  rewrite insert_desc_In, IH. intuition congruence.
Qed.

Lemma In_firstn : forall (A : Type) (n : nat) (l : list A) (y : A),
  In y (firstn n l) -> In y l.
Proof.
  intros A n l y Hin. rewrite <- (firstn_skipn n l).
  apply in_or_app. now left.
Qed.

(** [most_common] returns entries of the counter, at most [n] of them. *)
Lemma most_common_In : forall c n y, In y (most_common c n) -> In y c.
Proof.
  intros c n y Hin. unfold most_common in Hin.
  apply sorted_desc_In. eapply In_firstn; eauto.
Qed.

Lemma most_common_length : forall c n, (List.length (most_common c n) <= n)%nat.
Proof. intros c n. unfold most_common. apply firstn_le_length. Qed.

(** ** Construction *)

(** C5: a stopword file that cannot be used must leave the miner with the
    built-in stopwords and a warning.  The code does not get that far: for
    every non-empty path, whatever the file system holds, [load_stopwords]
    reads the global [os], which [text_mining.py] never imports, and the
    [NameError] leaves the constructor. *)
Theorem load_stopwords_raises_name_error :
  forall (U : Unicode) (T : Tokenizer) (fs : filesystem) (c : N) (p : pystr),
    load_stopwords fs (Some (c :: p)) = Raise (NameError "os")
    /\ init fs (Some (c :: p)) = Raise (NameError "os").
Proof. intros U T fs c p. split; reflexivity. Qed.

(** Without a path, or with the empty one, the constructor keeps the
    built-in stopwords and prints nothing, provided [jieba] starts. *)
Lemma init_default : forall (U : Unicode) (T : Tokenizer) (fs : filesystem),
  initialize = Ok tt ->
  init fs None = Ok ({| stopwords := set_update [] base_stopwords |}, []).
Proof. intros U T fs Hjieba. unfold init. simpl. now rewrite Hjieba. Qed.

(** ** Mining *)

Section Mining.
Context {U : Unicode} {T : Tokenizer} {F : NumFormat}.

(** What a non-empty result of [analyze_comments] is made of. *)
Lemma analyze_comments_result : forall self df text_column top_n r,
  analyze_comments self df text_column top_n = Ok (Some r) ->
  exists cells,
    df_getitem df text_column = Ok cells
    /\ r = let words := flat_map (comment_words self) (dropna cells) in
           {| top_words := most_common (Counter words) top_n;
              total_words := List.length words;
              unique_words := List.length (Counter words);
              all_word_counts := Counter words |}.
Proof.
  intros self df text_column top_n r Hrun. unfold analyze_comments in Hrun.
  destruct (df_getitem df text_column) as [cells|e]; [|discriminate Hrun].
  cbn [bind] in Hrun. cbv zeta in Hrun.
  destruct (clean_text _); [discriminate Hrun|].
  injection Hrun as <-. now exists cells.
Qed.

Lemma retained_spec : forall self w,
  retained self w = true ->
  (2 <= List.length w)%nat /\ ~ In w (stopwords self) /\ forallb isdigit w = false.
Proof.
  intros self w Hret. unfold retained in Hret.
  apply andb_true_iff in Hret as [Hret Hdigit].
  apply andb_true_iff in Hret as [Hlen Hstop].
  apply Nat.leb_le in Hlen.
  apply negb_true_iff in Hstop. apply negb_true_iff in Hdigit.
  repeat split.
  - exact Hlen.
  - intros Hin. apply mem_In in Hin. congruence.
  - destruct w; [simpl in Hlen; lia | exact Hdigit].
Qed.

Lemma comment_words_retained : forall self cells w,
  In w (flat_map (comment_words self) cells) -> retained self w = true.
Proof.
  intros self cells w Hin. apply in_flat_map in Hin as [v [_ Hin]].
  unfold comment_words in Hin. now apply filter_In in Hin.
Qed.

(** C8: for every corpus and every N, the [top_words] list of the mining
    result has at most N entries, and the values of [all_word_counts]
    add up to [total_words]. *)
Theorem mining_top_n_and_total :
  forall (self : miner) (df : DataFrame) (text_column : pystr) (top_n : nat)
         (r : mining_result),
    analyze_comments self df text_column top_n = Ok (Some r) ->
    (List.length (top_words r) <= top_n)%nat
    /\ list_sum (counter_values (all_word_counts r)) = total_words r.
Proof.
  intros self df text_column top_n r Hrun.
  apply analyze_comments_result in Hrun as [cells [_ ->]]. simpl. split.
  - apply most_common_length.
  - apply Counter_sum.
Qed.

(** C9: every key of [all_word_counts] is a retained token, that is, it
    has at least two characters, is not a stopword and is not made of
    digits only; and its count is strictly positive. *)
Theorem all_word_counts_keys_retained :
  forall (self : miner) (df : DataFrame) (text_column : pystr) (top_n : nat)
         (r : mining_result) (w : pystr) (count : nat),
    analyze_comments self df text_column top_n = Ok (Some r) ->
    In (w, count) (all_word_counts r) ->
    (2 <= List.length w)%nat
    /\ ~ In w (stopwords self)
    /\ forallb isdigit w = false
    /\ (0 < count)%nat.
Proof.
  intros self df text_column top_n r w count Hrun Hin.
  apply analyze_comments_result in Hrun as [cells [_ ->]]. simpl in Hin.
  apply Counter_entry in Hin as [Hw Hcount].
  apply comment_words_retained, retained_spec in Hw as [Hlen [Hstop Hdigit]].
  now repeat split.
Qed.

End Mining.

Lemma mining_top_n_and_total_witness :
  (List.length (top_words Sample.video_mined) <= 2)%nat
  /\ list_sum (counter_values (all_word_counts Sample.video_mined))
     = total_words Sample.video_mined.
Proof.
  apply (@mining_top_n_and_total Sample.basic_unicode Sample.space_tokenizer
           Sample.no_numbers Sample.default_miner Sample.video_comments
           (u "内容") 2%nat Sample.video_mined).
  vm_compute. reflexivity.
Defined.

Lemma all_word_counts_keys_retained_witness :
  (2 <= List.length (u "视频"))%nat
  /\ ~ In (u "视频") (stopwords Sample.default_miner)
  /\ forallb (@isdigit Sample.basic_unicode) (u "视频") = false
  /\ (0 < 2)%nat.
Proof.
  apply (@all_word_counts_keys_retained Sample.basic_unicode
           Sample.space_tokenizer Sample.no_numbers Sample.default_miner
           Sample.video_comments (u "内容") 2%nat Sample.video_mined
           (u "视频") 2%nat).
  - vm_compute. reflexivity.
  - vm_compute. right. right. left. reflexivity.
Defined.

(** ** Hot topics *)

Section Topics.
Context {U : Unicode} {T : Tokenizer} {F : NumFormat} {R : Regex}.

Lemma select_map : forall (f : pyval -> bool) (cells : list pyval),
  select (List.map f cells) cells = filter f cells.
Proof.
  intros f cells. induction cells as [|c cells IH]; [reflexivity|].
  simpl. destruct (f c); now rewrite IH.
Qed.

Lemma str_contains_ok : forall cells pat mask,
  str_contains cells pat = Ok mask ->
  exists p, re_compile pat = Ok p /\ select mask cells = pattern_matches p cells.
Proof.
  intros cells pat mask Hmask. unfold str_contains in Hmask.
  destruct (existsb isinstance_str cells || forallb isnull cells);
    [|discriminate Hmask].
  destruct (re_compile pat) as [p|e]; [|discriminate Hmask].
  cbn [bind] in Hmask. injection Hmask as <-.
  exists p. split; [reflexivity | apply select_map].
Qed.

(** Every topic built by the loop comes from an entry of [top_words]
    that reaches [min_count]; its related comments are those in which
    the keyword, compiled as a pattern, is found. *)
Lemma topics_loop_topics : forall cells min_count tops topics t,
  topics_loop cells min_count tops = Ok topics -> In t topics ->
  In (keyword t, occurrence_count t) tops
  /\ (min_count <= Z.of_nat (occurrence_count t))%Z
  /\ exists p, re_compile (keyword t) = Ok p
       /\ related_comment_count t = List.length (pattern_matches p cells)
       /\ sample_comments t = firstn 3 (pattern_matches p cells).
Proof.
  intros cells min_count tops. induction tops as [|[word count] tops IH];
    intros topics t Hloop Hin; simpl in Hloop.
  - injection Hloop as <-. destruct Hin.
  - destruct (min_count <=? Z.of_nat count)%Z eqn:Hcount.
    + destruct (str_contains cells word) as [mask|e] eqn:Hmask;
        [|discriminate Hloop].
      cbn [bind] in Hloop.
      destruct (topics_loop cells min_count tops) as [rest|e] eqn:Hrest;
        [|discriminate Hloop].
      cbn [bind] in Hloop. injection Hloop as <-.
      destruct Hin as [<-|Hin].
      * apply str_contains_ok in Hmask as [p [Hp Hsel]]. simpl.
        split; [now left|]. split; [now apply Z.leb_le|].
        exists p. now rewrite Hsel.
      * destruct (IH rest t eq_refl Hin) as [Htop Hrest']. split; [now right | assumption].
    + destruct (IH topics t Hloop Hin) as [Htop Hrest']. split; [now right | assumption].
Qed.

(** The parts of the hot-topic contract that hold for every corpus:
    each topic has [occurrence_count >= min_count] and at most three
    sample comments, the first matching ones in corpus order; the
    matching itself is a pattern search. *)
Lemma find_hot_topics_topics : forall self df text_column min_count topics t,
  find_hot_topics self df text_column min_count = Ok topics -> In t topics ->
  (min_count <= Z.of_nat (occurrence_count t))%Z
  /\ (List.length (sample_comments t) <= 3)%nat
  /\ exists cells p,
       df_getitem df text_column = Ok cells
       /\ re_compile (keyword t) = Ok p
       /\ related_comment_count t = List.length (pattern_matches p cells)
       /\ sample_comments t = firstn 3 (pattern_matches p cells).
Proof.
  intros self df text_column min_count topics t Hrun Hin.
  unfold find_hot_topics in Hrun.
  destruct (analyze_comments self df text_column 50) as [[r|]|e];
    cbn [bind] in Hrun; try discriminate Hrun.
  - destruct (df_getitem df text_column) as [cells|e] eqn:Hcells;
      [|discriminate Hrun].
    cbn [bind] in Hrun.
    destruct (@topics_loop_topics _ _ _ _ _ Hrun Hin) as [_ [Hcount [p [Hp [Hrel Hsample]]]]].
    split; [assumption|]. split.
    + rewrite Hsample. apply firstn_le_length.
    + now exists cells, p.
  - injection Hrun as <-. destruct Hin.
Qed.

(** When the pattern compiled from a keyword finds exactly the texts
    that contain the keyword, the related comments are the substring
    matches. *)
Lemma pattern_matches_literal : forall p word cells,
  (forall s, re_search p s = contains word s) ->
  pattern_matches p cells = substring_matches cells word.
Proof.
  intros p word cells Hlit. unfold pattern_matches, substring_matches.
  apply filter_ext. intros [s| |]; [apply Hlit | reflexivity | reflexivity].
Qed.

End Topics.

(** On a keyword without a dot the sample matcher is the substring test. *)
Lemma match_here_literal : forall pat s,
  existsb (N.eqb 46) pat = false ->
  Sample.match_here pat s = starts_with pat s.
Proof.
  induction pat as [|a pat IH]; intros s Hdot; [reflexivity|].
  cbn [existsb] in Hdot. apply orb_false_iff in Hdot as [Ha Hdot].
  destruct s as [|c s]; [reflexivity|].
  cbn [Sample.match_here starts_with]. unfold Sample.atom_matches.
  rewrite N.eqb_sym in Ha. rewrite Ha. now rewrite IH.
Qed.

Lemma search_literal : forall pat s,
  existsb (N.eqb 46) pat = false ->
  Sample.search pat s = contains pat s.
Proof.
  intros pat s Hdot. induction s as [|c s IH]; simpl.
  - now rewrite match_here_literal.
  - now rewrite match_here_literal, IH.
Qed.

(** C7: the related comments of a topic must be the comments whose text
    contains the keyword.  [str.contains] takes the keyword as a regular
    expression: with the token 3.5 the dot matches any character, so the
    comment with 325 is counted and sampled too, although 3.5 does not
    occur in it. *)
Theorem hot_topic_keyword_read_as_pattern :
  @find_hot_topics Sample.basic_unicode Sample.space_tokenizer Sample.no_numbers
     Sample.dot_regex Sample.default_miner Sample.video_comments (u "内容") 1%Z
  = Ok [ {| keyword := u "视频"; occurrence_count := 2; related_comment_count := 2;
            sample_comments := [ VStr (u "评分 3.5 视频"); VStr (u "第 325 集 视频") ] |};
         {| keyword := u "评分"; occurrence_count := 1; related_comment_count := 1;
            sample_comments := [ VStr (u "评分 3.5 视频") ] |};
         {| keyword := u "3.5"; occurrence_count := 1; related_comment_count := 2;
            sample_comments := [ VStr (u "评分 3.5 视频"); VStr (u "第 325 集 视频") ] |} ]
  /\ substring_matches [ VStr (u "评分 3.5 视频"); VStr (u "第 325 集 视频") ] (u "3.5")
     = [ VStr (u "评分 3.5 视频") ].
Proof. split; vm_compute; reflexivity. Qed.

End MinerFacts.

(* ================================================================== *)
(** * Counting and ranking *)
(* ================================================================== *)

Module RankingFacts.
Import Notions.

Lemma pystr_eqb_comm : forall a b, pystr_eqb a b = pystr_eqb b a.
Proof.
  intros a b. destruct (pystr_eqb b a) eqn:E.
  - apply pystr_eqb_eq in E. subst. apply pystr_eqb_refl.
  - apply pystr_eqb_neq. apply pystr_eqb_neq in E. congruence.
Qed.

(** ** Keys and counts of a [Counter] *)

Lemma counter_add_keys : forall c w k,
  In k (List.map fst (counter_add c w)) <-> k = w \/ In k (List.map fst c).
Proof.
  induction c as [|[k' n] c IH]; intros w k; simpl.
  - intuition congruence.
  - destruct (pystr_eqb k' w) eqn:E; simpl.
    + apply pystr_eqb_eq in E. subst k'. intuition congruence.
    + rewrite IH. intuition congruence.
Qed.

Lemma counter_add_NoDup : forall c w,
  NoDup (List.map fst c) -> NoDup (List.map fst (counter_add c w)).
Proof.
  induction c as [|[k n] c IH]; intros w Hnd; simpl.
  - constructor; [intros [] | constructor].
  - inversion Hnd as [|? ? Hk Hrest]; subst.
    destruct (pystr_eqb k w) eqn:E; simpl.
    + now constructor.
    + constructor; [|now apply IH].
      rewrite counter_add_keys. intros [->|Hin]; [|contradiction].
      rewrite pystr_eqb_refl in E. discriminate.
Qed.

(** The count stored for [w], or [0] when [w] is not a key. *)
Lemma counter_add_get : forall c w k,
  dict_get (counter_add c w) k 0%nat
  = ((if pystr_eqb w k then 1 else 0) + dict_get c k 0)%nat.
Proof.
  induction c as [|[k' n] c IH]; intros w k; simpl.
  - destruct (pystr_eqb w k); reflexivity.
  - destruct (pystr_eqb k' w) eqn:E; simpl.
    + apply pystr_eqb_eq in E. subst k'.
      destruct (pystr_eqb w k); simpl; lia.
    + destruct (pystr_eqb k' k) eqn:E'; [|apply IH].
      apply pystr_eqb_eq in E'. subst k'.
      rewrite (pystr_eqb_comm w k), E. reflexivity.
Qed.

Lemma counter_fold_get : forall ws c k,
  dict_get (fold_left counter_add ws c) k 0%nat
  = (occurrences k ws + dict_get c k 0)%nat.
Proof.
  unfold occurrences.
  induction ws as [|w ws IH]; intros c k; [reflexivity|].
  cbn [fold_left filter]. rewrite IH, counter_add_get, (pystr_eqb_comm w k).
  destruct (pystr_eqb k w); simpl; lia.
Qed.

Lemma dict_get_entry : forall (c : counter) k n,
  NoDup (List.map fst c) -> In (k, n) c -> dict_get c k 0%nat = n.
Proof.
  induction c as [|[k' n'] c IH]; intros k n Hnd Hin; [destruct Hin|].
  inversion Hnd as [|? ? Hk Hrest]; subst. simpl.
  destruct Hin as [E|Hin].
  - injection E as -> ->. now rewrite pystr_eqb_refl.
  - destruct (pystr_eqb k' k) eqn:E; [|now apply IH].
    apply pystr_eqb_eq in E. subst k'.
    exfalso. apply Hk. apply in_map_iff. now exists (k, n).
Qed.

Lemma Counter_NoDup : forall ws, NoDup (List.map fst (Counter ws)).
Proof.
  intros ws. unfold Counter.
  assert (G : forall c, NoDup (List.map fst c) ->
                        NoDup (List.map fst (fold_left counter_add ws c))).
  { induction ws as [|w ws IH]; intros c Hc; simpl; [assumption|].
    apply IH. now apply counter_add_NoDup. }
  apply G. constructor.
Qed.

Lemma Counter_keys : forall ws k, In k (List.map fst (Counter ws)) <-> In k ws.
Proof.
  intros ws k. unfold Counter.
  assert (G : forall c, In k (List.map fst (fold_left counter_add ws c))
                        <-> In k ws \/ In k (List.map fst c)).
  { induction ws as [|w ws IH]; intros c; simpl; [tauto|].
    rewrite IH, counter_add_keys. intuition congruence. }
  rewrite G. simpl. tauto.
Qed.

(** A [Counter] holds, for each item, the number of times it was counted. *)
Lemma Counter_occurrences : forall ws k n,
  In (k, n) (Counter ws) -> n = occurrences k ws.
Proof.
  intros ws k n Hin.
  rewrite <- (dict_get_entry (Counter ws) k n (Counter_NoDup ws) Hin).
  unfold Counter. rewrite counter_fold_get. simpl. lia.
Qed.

Lemma Counter_has : forall ws k,
  In k ws -> In (k, occurrences k ws) (Counter ws).
Proof.
  intros ws k Hin. apply Counter_keys in Hin.
  apply in_map_iff in Hin as [[k' n] [E Hin]]. simpl in E. subst k'.
  now rewrite <- (Counter_occurrences _ _ _ Hin).
Qed.

(** ** The stable descending sort *)

Lemma insert_desc_perm : forall x l, Permutation (insert_desc x l) (x :: l).
Proof.
  intros x l. induction l as [|y l IH]; simpl; [reflexivity|].
  destruct (snd x <? snd y)%nat; [|reflexivity].
  rewrite IH. apply perm_swap.
Qed.

Lemma sorted_desc_perm : forall c, Permutation (sorted_desc c) c.
Proof.
  induction c as [|x c IH]; simpl; [reflexivity|].
  rewrite insert_desc_perm. now constructor.
Qed.

Lemma insert_desc_descending : forall x l,
  descending l -> descending (insert_desc x l).
Proof.
  intros x l. induction l as [|y l IH]; intros Hl; simpl.
  - split; [intros ? [] | exact I].
  - destruct Hl as [Hy Hl].
    destruct (snd x <? snd y)%nat eqn:E.
    + apply Nat.ltb_lt in E. split; [|now apply IH].
      intros z Hz.
      apply (Permutation_in _ (insert_desc_perm x l)) in Hz.
      destruct Hz as [<-|Hz]; [lia | now apply Hy].
    + apply Nat.ltb_ge in E. split; [|now split].
      intros z [<-|Hz]; [assumption|]. specialize (Hy z Hz). lia.
Qed.

Lemma sorted_desc_descending : forall c, descending (sorted_desc c).
Proof.
  induction c as [|x c IH]; simpl; [exact I|].
  now apply insert_desc_descending.
Qed.

(** The sort is stable: entries with the same count keep their order. *)
Lemma insert_desc_with_count : forall n x l,
  with_count n (insert_desc x l) = with_count n (x :: l).
Proof.
  intros n x l. unfold with_count.
  induction l as [|y l IH]; simpl; [reflexivity|].
  destruct (snd x <? snd y)%nat eqn:E; [|reflexivity].
  apply Nat.ltb_lt in E. simpl in *. rewrite IH.
  destruct (snd x =? n)%nat eqn:Ex; [|reflexivity].
  apply Nat.eqb_eq in Ex.
  assert (Ey : (snd y =? n)%nat = false) by (apply Nat.eqb_neq; lia).
  now rewrite Ey.
Qed.

Lemma sorted_desc_with_count : forall n c,
  with_count n (sorted_desc c) = with_count n c.
Proof.
  intros n c. induction c as [|x c IH]; simpl; [reflexivity|].
  rewrite insert_desc_with_count. unfold with_count in *. simpl.
  now rewrite IH.
Qed.

Lemma perm_sum : forall c c' : counter,
  Permutation c c' -> list_sum (counter_values c) = list_sum (counter_values c').
Proof.
  unfold counter_values.
  induction 1 as [|x l l' _ IH|x y l|l l' l'' _ IH1 _ IH2]; simpl; lia.
Qed.

Lemma descending_split : forall n c x y,
  descending c -> In x (firstn n c) -> In y (skipn n c) -> (snd y <= snd x)%nat.
Proof.
  induction n as [|n IH]; intros c x y Hc Hx Hy; [destruct Hx|].
  destruct c as [|z c]; [destruct Hx|].
  destruct Hc as [Hz Hc]. simpl in Hx, Hy.
  destruct Hx as [<-|Hx].
  - apply Hz. rewrite <- (firstn_skipn n c). apply in_or_app. now right.
  - now apply (IH c).
Qed.

Lemma descending_firstn : forall n c, descending c -> descending (firstn n c).
Proof.
  induction n as [|n IH]; intros c Hc; [exact I|].
  destruct c as [|z c]; [exact I|].
  destruct Hc as [Hz Hc]. simpl. split; [|now apply IH].
  intros y Hy. apply Hz. rewrite <- (firstn_skipn n c). apply in_or_app. now left.
Qed.

End RankingFacts.

(* ================================================================== *)
(** * More on the sentiment scorer *)
(* ================================================================== *)

Module ScorerFacts.
Import SentimentAnalyzer Statements Notions.

(** ** Numbers *)

Lemma Qltb_compat : forall x x' y y', x == x' -> y == y' -> Qltb x y = Qltb x' y'.
Proof.
  intros x x' y y' Hx Hy. unfold Qltb.
  now rewrite (Qcompare_comp x x' Hx y y' Hy).
Qed.

Lemma classify_compat : forall x y, x == y ->
  classify_sentiment x = classify_sentiment y.
Proof.
  intros x y Hxy. unfold classify_sentiment.
  rewrite (Qltb_compat (Qeq_refl 0.1) Hxy).
  now rewrite (Qltb_compat Hxy (Qeq_refl (-0.1))).
Qed.

(** Inside the interval the clamp returns its argument. *)
Lemma clamp_inside : forall x, -1 <= x -> x <= 1 -> py_max (-1) (py_min 1 x) == x.
Proof.
  intros x Hlo Hhi. unfold py_max, py_min.
  destruct (Qltb x 1) eqn:E1.
  - destruct (Qltb (-1) x) eqn:E2; [reflexivity|].
    apply Qltb_ge in E2. lra.
  - apply Qltb_ge in E1.
    destruct (Qltb (-1) 1) eqn:E2; [lra | discriminate E2].
Qed.

Lemma clamp_negative : forall x, x < 0 -> py_max (-1) (py_min 1 x) < 0.
Proof.
  intros x Hx. unfold py_max, py_min.
  assert (E1 : Qltb x 1 = true) by (apply Qltb_lt; lra).
  rewrite E1. destruct (Qltb (-1) x); [assumption | reflexivity].
Qed.

Lemma clamp_positive : forall x, 0 < x -> 0 < py_max (-1) (py_min 1 x).
Proof.
  intros x Hx. unfold py_max, py_min.
  destruct (Qltb x 1) eqn:E1.
  - assert (E2 : Qltb (-1) x = true) by (apply Qltb_lt; lra).
    now rewrite E2.
  - reflexivity.
Qed.

Lemma inject_length_pos : forall (A : Type) (x : A) (l : list A),
  0 < inject_Z (Z.of_nat (List.length (x :: l))).
Proof.
  intros A x l. change 0 with (inject_Z 0). rewrite <- Zlt_Qlt.
  simpl List.length. lia.
Qed.

Lemma inject_length_cons : forall (A : Type) (x : A) (l : list A),
  inject_Z (Z.of_nat (List.length (x :: l)))
  == inject_Z (Z.of_nat (List.length l)) + 1.
Proof.
  intros A x l. simpl List.length. rewrite Nat2Z.inj_succ.
  unfold Z.succ. now rewrite inject_Z_plus.
Qed.

(** ** One comment *)

Lemma first_of_neutral_run : forall self ws score negation,
  forallb (fun w => negb (is_sentiment self w)) ws = true ->
  fst (run_loop self ws (score, negation)) = score.
Proof.
  intros self ws. induction ws as [|w ws IH]; intros score negation Hall;
    [reflexivity|].
  simpl in Hall. apply andb_true_iff in Hall as [Hw Hall].
  apply negb_true_iff in Hw.
  rewrite SentimentFacts.run_loop_cons.
  destruct (is_marker self w) eqn:Hm.
  - rewrite SentimentFacts.loop_body_marker by assumption. now apply IH.
  - rewrite SentimentFacts.loop_body_neutral by assumption. now apply IH.
Qed.

(** X1: a text in which the segmenter finds no positive and no negative word
    scores zero and is classified 中性 (neutral), whatever markers and
    modifiers it contains; so does a text without tokens. *)
Theorem text_without_sentiment_word_is_neutral :
  forall (T : Tokenizer) (self : analyzer) (s : pystr),
    forallb (fun w => negb (is_sentiment self w)) (cut s) = true ->
    analyze_sentence self (VStr s) == 0
    /\ classify_sentiment (analyze_sentence self (VStr s)) = u "中性".
Proof.
  intros T self s Hall.
  assert (Hzero : analyze_sentence self (VStr s) == 0).
  { simpl. unfold score_words. rewrite first_of_neutral_run by assumption.
    destruct (cut s) as [|w ws]; [reflexivity|].
    change (0 <? List.length (w :: ws))%nat with true. cbv iota.
    pose proof (inject_length_pos w ws) as Hpos.
    assert (Hq : 0 / inject_Z (Z.of_nat (List.length (w :: ws))) == 0).
    { unfold Qdiv. apply Qmult_0_l. }
    rewrite clamp_inside; rewrite Hq; lra. }
  split; [exact Hzero|].
  rewrite (classify_compat Hzero). reflexivity.
Qed.

Lemma text_without_sentiment_word_is_neutral_witness :
  @analyze_sentence Sample.space_tokenizer init (VStr (u "这个 视频 不 长")) == 0
  /\ classify_sentiment
       (@analyze_sentence Sample.space_tokenizer init (VStr (u "这个 视频 不 长")))
     = u "中性".
Proof.
  apply (@text_without_sentiment_word_is_neutral Sample.space_tokenizer init
           (u "这个 视频 不 长")).
  vm_compute. reflexivity.
Defined.

Lemma sum_within_length : forall self ws score negation,
  modifiers_apart self = true ->
  score - inject_Z (Z.of_nat (List.length ws))
    <= fst (run_loop self ws (score, negation))
    <= score + inject_Z (Z.of_nat (List.length ws)).
Proof.
  intros self ws. induction ws as [|w ws IH]; intros score negation Hapart.
  - simpl. unfold inject_Z. lra.
  - rewrite SentimentFacts.run_loop_cons.
    pose proof (inject_length_cons w ws) as Hlen.
    destruct (is_marker self w) eqn:Hm.
    + rewrite SentimentFacts.loop_body_marker by assumption.
      specialize (IH score true Hapart). lra.
    + destruct (is_sentiment self w) eqn:Hs.
      * rewrite SentimentFacts.loop_body_sentiment by assumption.
        rewrite SentimentFacts.intensity_of_sentiment_word by assumption.
        match goal with
        | |- _ <= fst (run_loop _ _ (?s, _)) <= _ =>
            specialize (IH s false Hapart); set (s' := s) in *;
            assert (Hstep : score - 1 <= s' <= score + 1)
        end.
        { subst s'. unfold polarity.
          destruct negation; destruct (mem w (positive_words self)); lra. }
        lra.
      * rewrite SentimentFacts.loop_body_neutral by assumption.
        specialize (IH score negation Hapart). lra.
Qed.

(** X2: when no intensity modifier is itself a sentiment word, as in the
    built-in lexicon, the sum of the loop lies between minus and plus the
    number of tokens, so the clamp never acts: the score is the sum divided
    by the number of tokens. *)
Theorem score_is_sum_over_token_count :
  forall (self : analyzer) (w : pystr) (ws : list pystr),
    modifiers_apart self = true ->
    let sum := fst (run_loop self (w :: ws) (0, false)) in
    let n := inject_Z (Z.of_nat (List.length (w :: ws))) in
    - n <= sum <= n /\ score_words self (w :: ws) == sum / n.
Proof.
  intros self w ws Hapart sum n.
  pose proof (sum_within_length self (w :: ws) 0 false Hapart) as Hsum.
  fold sum n in Hsum.
  pose proof (inject_length_pos w ws) as Hn. fold n in Hn.
  split; [lra|].
  unfold score_words. fold sum.
  change (0 <? List.length (w :: ws))%nat with true. cbv iota. fold n.
  apply clamp_inside.
  - apply Qle_shift_div_l; [assumption | lra].
  - apply Qle_shift_div_r; [assumption | lra].
Qed.

Lemma score_is_sum_over_token_count_witness :
  let sum := fst (run_loop init (u "很" :: [u "好"]) (0, false)) in
  let n := inject_Z (Z.of_nat (List.length (u "很" :: [u "好"]))) in
  - n <= sum <= n /\ score_words init (u "很" :: [u "好"]) == sum / n.
Proof.
  apply (@score_is_sum_over_token_count init (u "很") [u "好"]).
  vm_compute. reflexivity.
Defined.

(** X3: the only sentiment word of a text is a positive word with a positive
    weight: right after a negation marker it makes the score negative,
    without the marker it makes the score positive. *)
Theorem marker_turns_positive_text_negative :
  forall (self : analyzer) (before : list pystr) (marker w : pystr)
         (after : list pystr),
    forallb (neutral self) before = true ->
    forallb (neutral self) after = true ->
    is_marker self marker = true ->
    is_marker self w = false ->
    mem w (positive_words self) = true ->
    0 < dict_get (intensity_words self) w 1.0 ->
    score_words self (before ++ marker :: w :: after) < 0
    /\ 0 < score_words self (before ++ w :: after).
Proof.
  intros self before marker w after Hbefore Hafter Hmark Hw Hpos Hweight.
  assert (Hs : is_sentiment self w = true)
    by (unfold is_sentiment; now rewrite Hpos).
  assert (Hpol : polarity self w = 1) by (unfold polarity; now rewrite Hpos).
  assert (Hwith : fst (run_loop self (before ++ marker :: w :: after) (0, false))
                  == - dict_get (intensity_words self) w 1.0).
  { rewrite SentimentFacts.run_loop_app.
    rewrite (SentimentFacts.run_loop_neutral self before) by assumption.
    rewrite !SentimentFacts.run_loop_cons.
    rewrite SentimentFacts.loop_body_marker by assumption.
    rewrite SentimentFacts.loop_body_sentiment by assumption.
    rewrite (SentimentFacts.run_loop_neutral self after) by assumption.
    simpl fst. rewrite Hpol. ring. }
  assert (Hwithout : fst (run_loop self (before ++ w :: after) (0, false))
                     == dict_get (intensity_words self) w 1.0).
  { rewrite SentimentFacts.run_loop_app.
    rewrite (SentimentFacts.run_loop_neutral self before) by assumption.
    rewrite SentimentFacts.run_loop_cons.
    rewrite SentimentFacts.loop_body_sentiment by assumption.
    rewrite (SentimentFacts.run_loop_neutral self after) by assumption.
    simpl fst. rewrite Hpol. ring. }
  unfold score_words. split.
  - destruct (before ++ marker :: w :: after) as [|x l] eqn:E.
    { destruct before; discriminate E. }
    change (0 <? List.length (x :: l))%nat with true. cbv iota.
    apply clamp_negative. rewrite Hwith.
    apply Qlt_shift_div_r; [apply inject_length_pos | lra].
  - destruct (before ++ w :: after) as [|x l] eqn:E.
    { destruct before; discriminate E. }
    change (0 <? List.length (x :: l))%nat with true. cbv iota.
    apply clamp_positive. rewrite Hwithout.
    apply Qlt_shift_div_l; [apply inject_length_pos | lra].
Qed.

Lemma marker_turns_positive_text_negative_witness :
  score_words init ([u "视频"] ++ u "不" :: u "喜欢" :: [u "了"]) < 0
  /\ 0 < score_words init ([u "视频"] ++ u "喜欢" :: [u "了"]).
Proof.
  apply (@marker_turns_positive_text_negative init [u "视频"] (u "不") (u "喜欢")
           [u "了"]); vm_compute; reflexivity.
Defined.

(** ** A table of comments *)

Lemma df_getitem_columns : forall df col,
  match df_getitem df col with
  | Ok _ => mem col (columns df) = true
  | Raise e => mem col (columns df) = false /\ e = KeyError col
  end.
Proof.
  unfold columns, mem.
  induction df as [|[name cells] df IH]; intros col; simpl.
  - now split.
  - rewrite (RankingFacts.pystr_eqb_comm col name).
    destruct (pystr_eqb name col); [reflexivity|]. simpl. apply IH.
Qed.

Lemma df_set_same_value : forall df col cells,
  df_getitem df col = Ok cells -> df_setitem df col cells = df.
Proof.
  induction df as [|[name old] df IH]; intros col cells Hget; simpl in *.
  - discriminate Hget.
  - destruct (pystr_eqb name col).
    + now injection Hget as ->.
    + now rewrite IH.
Qed.

Lemma df_set_set : forall df col cells cells',
  df_setitem (df_setitem df col cells) col cells' = df_setitem df col cells'.
Proof.
  induction df as [|[name old] df IH]; intros col cells cells'; simpl.
  - now rewrite pystr_eqb_refl.
  - destruct (pystr_eqb name col) eqn:E; simpl; rewrite E; [reflexivity|].
    now rewrite IH.
Qed.

Lemma df_set_columns : forall df col cells c,
  mem c (columns (df_setitem df col cells)) = mem c (columns df) || pystr_eqb c col.
Proof.
  unfold columns, mem.
  induction df as [|[name old] df IH]; intros col cells c; simpl.
  - now rewrite orb_false_r.
  - destruct (pystr_eqb name col) eqn:E; simpl.
    + apply pystr_eqb_eq in E. subst name.
      destruct (pystr_eqb c col); [reflexivity | now rewrite orb_false_r].
    + rewrite IH. now rewrite orb_assoc.
Qed.

Section Tables.
Context {T : Tokenizer}.

(** What the call computes when the text column is there. *)
Lemma analyze_comments_ok : forall self h df text_column texts,
  df_getitem (h df) text_column = Ok texts ->
  analyze_comments self h df text_column
  = Ok (store_set (store_set h df
                     (df_setitem (h df) (u "情感分数") (score_column self texts)))
                  df (scored self (h df) texts),
        (df, value_counts
               (List.map (fun v => classify_sentiment (analyze_sentence self v)) texts))).
Proof.
  intros self h df text_column texts Htexts.
  unfold analyze_comments. rewrite Htexts. cbn [bind]. cbv zeta.
  rewrite !SentimentFacts.store_set_same.
  rewrite (SentimentFacts.df_get_set_same (h df) (u "情感分数")). cbn [bind].
  rewrite !SentimentFacts.store_set_same.
  rewrite (SentimentFacts.df_get_set_same _ (u "情感分类")). cbn [bind].
  unfold scored, score_column, label_column.
  rewrite !List.map_map. reflexivity.
Qed.


(** X5: the label distribution returned with the table has one entry for each
    label that occurs, with the number of comments that got the label; the
    labels are among 积极, 消极 and 中性, the entries are in decreasing order
    of their counts, and the counts add up to the number of comments. *)
Theorem label_distribution_counts_every_comment :
  forall (self : analyzer) (h : store) (df : ref) (text_column : pystr)
         (h' : store) (df' : ref) (counts : counter),
    analyze_comments self h df text_column = Ok (h', (df', counts)) ->
    exists texts,
      df_getitem (h df) text_column = Ok texts
      /\ list_sum (counter_values counts) = List.length texts
      /\ NoDup (List.map fst counts)
      /\ descending counts
      /\ forall label n, In (label, n) counts ->
           In label [u "积极"; u "消极"; u "中性"]
           /\ (0 < n)%nat
           /\ n = occurrences label
                    (List.map (fun v => classify_sentiment (analyze_sentence self v)) texts).
Proof.
  intros self h df text_column h' df' counts Hrun.
  destruct (df_getitem (h df) text_column) as [texts|e] eqn:Htexts.
  2:{ unfold analyze_comments in Hrun. rewrite Htexts in Hrun. discriminate Hrun. }
  rewrite (analyze_comments_ok self h df text_column Htexts) in Hrun.
  injection Hrun as _ _ <-.
  exists texts. split; [reflexivity|].
  unfold value_counts.
  set (labels := List.map (fun v => classify_sentiment (analyze_sentence self v)) texts).
  pose proof (RankingFacts.sorted_desc_perm (Counter labels)) as Hperm.
  repeat split.
  - rewrite (RankingFacts.perm_sum Hperm), MinerFacts.Counter_sum.
    unfold labels. apply length_map.
  - apply (Permutation_NoDup (l := List.map fst (Counter labels))).
    + apply Permutation_map. now apply Permutation_sym.
    + apply RankingFacts.Counter_NoDup.
  - apply RankingFacts.sorted_desc_descending.
  - apply (Permutation_in _ Hperm) in H.
    apply MinerFacts.Counter_entry in H as [Hin _].
    unfold labels in Hin. apply in_map_iff in Hin as [v [<- _]].
    unfold classify_sentiment.
    destruct (Qltb 0.1 _); [now left|].
    destruct (Qltb _ (-0.1)); [right; now left | right; right; now left].
  - apply (Permutation_in _ Hperm) in H.
    now apply MinerFacts.Counter_entry in H.
  - apply (Permutation_in _ Hperm) in H.
    now apply RankingFacts.Counter_occurrences.
Qed.

End Tables.

Section Rescoring.
Context {T : Tokenizer}.

Lemma scored_has_scores : forall self df texts,
  df_getitem (scored self df texts) (u "情感分数") = Ok (score_column self texts).
Proof.
  intros self df texts. unfold scored.
  rewrite SentimentFacts.df_get_set_other by (vm_compute; discriminate).
  apply SentimentFacts.df_get_set_same.
Qed.

Lemma scored_has_labels : forall self df texts,
  df_getitem (scored self df texts) (u "情感分类") = Ok (label_column self texts).
Proof. intros self df texts. unfold scored. apply SentimentFacts.df_get_set_same. Qed.

Lemma scored_keeps : forall self df texts col,
  col <> u "情感分数" -> col <> u "情感分类" ->
  df_getitem (scored self df texts) col = df_getitem df col.
Proof.
  intros self df texts col H1 H2. unfold scored.
  now rewrite !SentimentFacts.df_get_set_other.
Qed.

Lemma scored_again : forall self df texts,
  scored self (scored self df texts) texts = scored self df texts.
Proof.
  intros self df texts. unfold scored at 1.
  rewrite (df_set_same_value _ _ (scored_has_scores self df texts)).
  apply df_set_same_value. apply scored_has_labels.
Qed.

(** X6: scoring an already scored table again changes nothing: the second call
    succeeds, leaves every table of the store as the first call left it and
    returns the same label distribution.  The text column must not be one
    of the two columns the scorer writes. *)
Theorem scoring_twice_is_scoring_once :
  forall (self : analyzer) (h : store) (df : ref) (text_column : pystr)
         (h1 : store) (df1 : ref) (counts : counter),
    text_column <> u "情感分数" -> text_column <> u "情感分类" ->
    analyze_comments self h df text_column = Ok (h1, (df1, counts)) ->
    exists h2,
      analyze_comments self h1 df text_column = Ok (h2, (df, counts))
      /\ forall r, h2 r = h1 r.
Proof.
  intros self h df text_column h1 df1 counts Hs Hl Hrun.
  destruct (df_getitem (h df) text_column) as [texts|e] eqn:Htexts.
  2:{ unfold analyze_comments in Hrun. rewrite Htexts in Hrun. discriminate Hrun. }
  rewrite (analyze_comments_ok self h df text_column Htexts) in Hrun.
  injection Hrun as <- <- <-.
  set (h1 := store_set _ df (scored self (h df) texts)).
  assert (Hdf : h1 df = scored self (h df) texts)
    by apply SentimentFacts.store_set_same.
  assert (Htexts1 : df_getitem (h1 df) text_column = Ok texts).
  { rewrite Hdf, scored_keeps by assumption. exact Htexts. }
  eexists. split.
  - apply (analyze_comments_ok self h1 df text_column Htexts1).
  - intros r. rewrite Hdf, scored_again.
    destruct (Nat.eq_dec r df) as [->|Hne].
    + now rewrite SentimentFacts.store_set_same.
    + rewrite !SentimentFacts.store_set_other by assumption. reflexivity.
Qed.

End Rescoring.

Lemma scoring_twice_is_scoring_once_witness :
  exists h2,
    @analyze_comments Sample.space_tokenizer init Sample.store_after_scoring
       0%nat (u "内容") = Ok (h2, (0%nat, [ (u "积极", 1%nat) ]))
    /\ forall r, h2 r = Sample.store_after_scoring r.
Proof.
  apply (@scoring_twice_is_scoring_once Sample.space_tokenizer init
           (Sample.one_table Sample.praise) 0%nat (u "内容")
           Sample.store_after_scoring 0%nat [ (u "积极", 1%nat) ]).
  - vm_compute. discriminate.
  - vm_compute. discriminate.
  - vm_compute. reflexivity.
Defined.

Lemma label_distribution_counts_every_comment_witness :
  exists texts,
    df_getitem (Sample.one_table Sample.praise 0%nat) (u "内容") = Ok texts
    /\ list_sum (counter_values [ (u "积极", 1%nat) ]) = List.length texts
    /\ NoDup (List.map fst [ (u "积极", 1%nat) ])
    /\ descending [ (u "积极", 1%nat) ]
    /\ forall label n, In (label, n) [ (u "积极", 1%nat) ] ->
         In label [u "积极"; u "消极"; u "中性"]
         /\ (0 < n)%nat
         /\ n = occurrences label
                  (List.map
                     (fun v => classify_sentiment
                                 (@analyze_sentence Sample.space_tokenizer init v))
                     texts).
Proof.
  apply (@label_distribution_counts_every_comment Sample.space_tokenizer init
           (Sample.one_table Sample.praise) 0%nat (u "内容")
           Sample.store_after_scoring 0%nat [ (u "积极", 1%nat) ]).
  vm_compute. reflexivity.
Defined.

(** ** The summary *)

Section Summary.
Context {T : Tokenizer}.









End Summary.


(** X8: the summary fails with a [KeyError] exactly when one of the two columns
    is missing: for 情感分类 when that one is missing, else for 情感分数. *)
Theorem summary_needs_both_columns :
  forall df : DataFrame,
    match get_sentiment_summary df with
    | Fails e =>
        (mem (u "情感分类") (columns df) = false /\ e = KeyError (u "情感分类"))
        \/ (mem (u "情感分类") (columns df) = true
            /\ mem (u "情感分数") (columns df) = false
            /\ e = KeyError (u "情感分数"))
    | _ =>
        mem (u "情感分类") (columns df) = true
        /\ mem (u "情感分数") (columns df) = true
    end.
Proof.
  intros df. unfold get_sentiment_summary.
  pose proof (df_getitem_columns df (u "情感分类")) as Hl.
  pose proof (df_getitem_columns df (u "情感分数")) as Hs.
  destruct (df_getitem df (u "情感分类")) as [labels|e].
  - destruct (df_getitem df (u "情感分数")) as [scores|e'].
    + destruct (numbers scores); now split.
    + right. destruct Hs as [Hmiss ->]. now repeat split.
  - left. exact Hl.
Qed.

End ScorerFacts.

(* ================================================================== *)
(** * More on the text miner *)
(* ================================================================== *)

Module MiningFacts.
Import TextMiner Statements Notions.

(** ** White space *)

Section Cleaning.
Context {U : Unicode}.

Lemma lstrip_split : forall s,
  exists p, s = p ++ lstrip s /\ forallb isspace p = true.
Proof.
  induction s as [|c s [p [Hs Hp]]]; [now exists []|].
  simpl. destruct (isspace c) eqn:E.
  - exists (c :: p). simpl. rewrite E, Hp. split; [now f_equal | reflexivity].
  - now exists [].
Qed.

Lemma lstrip_starts_clean : forall s, starts_clean (lstrip s).
Proof.
  induction s as [|c s IH]; [exact I|].
  simpl. destruct (isspace c) eqn:E; [exact IH | exact E].
Qed.

Lemma lstrip_clean : forall s, starts_clean s -> lstrip s = s.
Proof. intros [|c s] Hs; [reflexivity|]. simpl in *. now rewrite Hs. Qed.

(** [strip] removes white space at both ends and nothing else. *)
Lemma strip_split : forall s,
  exists p q, s = p ++ strip s ++ q
              /\ forallb isspace p = true /\ forallb isspace q = true.
Proof.
  intros s. unfold strip.
  destruct (lstrip_split s) as [p [Hs Hp]].
  destruct (lstrip_split (rev (lstrip s))) as [q [Hr Hq]].
  exists p, (rev q). repeat split.
  - rewrite <- rev_app_distr, <- Hr, rev_involutive. exact Hs.
  - exact Hp.
  - rewrite forallb_forall in *. intros x Hx. apply Hq. now apply in_rev.
Qed.

Lemma strip_ends_clean : forall s, starts_clean (rev (strip s)).
Proof. intros s. unfold strip. rewrite rev_involutive. apply lstrip_starts_clean. Qed.

Lemma strip_starts_clean : forall s, starts_clean (strip s).
Proof.
  intros s. unfold strip.
  pose proof (lstrip_starts_clean s) as Hhead.
  destruct (lstrip_split (rev (lstrip s))) as [q [Hr Hq]].
  destruct (lstrip s) as [|c s1]; [exact I|].
  apply (f_equal (@rev N)) in Hr. rewrite rev_involutive, rev_app_distr in Hr.
  destruct (rev (lstrip (rev (c :: s1)))) as [|d t].
  - simpl in Hr. rewrite forallb_forall in Hq.
    assert (Hc : In c q) by (apply in_rev; rewrite <- Hr; now left).
    apply Hq in Hc. simpl in Hhead. congruence.
  - simpl in Hr. injection Hr as <- _. exact Hhead.
Qed.

Lemma single_spaced_suffix : forall p s, single_spaced (p ++ s) -> single_spaced s.
Proof. induction p as [|c p IH]; intros s H; [exact H|]. apply IH. apply H. Qed.

Lemma single_spaced_prefix : forall s q, single_spaced (s ++ q) -> single_spaced s.
Proof.
  induction s as [|c s IH]; intros q H; [exact I|].
  destruct H as [Hc Hs]. split; [|now apply (IH q)].
  intros Hsp. specialize (Hc Hsp). now destruct s.
Qed.

Lemma Forall_middle : forall (P : N -> Prop) p s q,
  Forall P (p ++ s ++ q) -> Forall P s.
Proof.
  intros P p s q H. apply Forall_app in H as [_ H]. now apply Forall_app in H as [H _].
Qed.

Lemma collapse_spaces_shape : forall s in_run,
  single_spaced (collapse_spaces in_run s)
  /\ (in_run = true -> starts_clean (collapse_spaces in_run s))
  /\ (Forall (fun c => kept_char c = true) s ->
      Forall clean_char (collapse_spaces in_run s)).
Proof.
  induction s as [|c s IH]; intros in_run.
  - simpl. split; [exact I|]. split; [intros _; exact I | intros _; constructor].
  - simpl. destruct (isspace c) eqn:E.
    + destruct (IH true) as [Hs [Hc Hk]]. destruct in_run.
      * split; [exact Hs|]. split; [intros _; now apply Hc|].
        intros Hall. apply Hk. now inversion Hall.
      * split; [split; [intros _; now apply Hc | exact Hs]|].
        split; [discriminate|].
        intros Hall. constructor; [now right|]. apply Hk. now inversion Hall.
    + destruct (IH false) as [Hs [_ Hk]].
      split; [split; [congruence | exact Hs]|].
      split; [intros _; exact E|].
      intros Hall. inversion Hall as [|? ? Hck Hrest]; subst.
      constructor; [now left | now apply Hk].
Qed.

Lemma clean_text_shape : forall text : pyval,
  starts_clean (clean_text text)
  /\ starts_clean (rev (clean_text text))
  /\ single_spaced (clean_text text)
  /\ Forall clean_char (clean_text text).
Proof.
  intros [s| |]; simpl; try (repeat split; exact I || constructor).
  set (t := collapse_spaces false (filter kept_char s)).
  destruct (collapse_spaces_shape (filter kept_char s) false) as [Hs [_ Hk]].
  fold t in Hs, Hk.
  destruct (strip_split t) as [p [q [Ht _]]].
  repeat split.
  - apply strip_starts_clean.
  - apply strip_ends_clean.
  - rewrite Ht in Hs. apply single_spaced_suffix in Hs.
    now apply single_spaced_prefix in Hs.
  - assert (Hall : Forall clean_char t).
    { apply Hk. apply Forall_forall. intros c Hc. now apply filter_In in Hc. }
    rewrite Ht in Hall. now apply Forall_middle in Hall.
Qed.

(** X9: the result of [clean_text] neither begins nor ends with white space,
    has no two white-space characters next to each other, and is made of
    characters the pattern keeps (word characters and CJK ideographs) and
    of single spaces U+0020. *)
Theorem clean_text_is_trimmed_and_single_spaced :
  forall text : pyval,
    starts_clean (clean_text text)
    /\ starts_clean (rev (clean_text text))
    /\ single_spaced (clean_text text)
    /\ Forall clean_char (clean_text text).
Proof. intros text. apply clean_text_shape. Qed.

Lemma collapse_spaces_fixed : forall s in_run,
  Forall clean_char s -> single_spaced s ->
  (in_run = true -> starts_clean s) ->
  collapse_spaces in_run s = s.
Proof.
  induction s as [|c s IH]; intros in_run Hall Hss Hrun; [reflexivity|].
  inversion Hall as [|? ? Hc Hrest]; subst. destruct Hss as [Hnext Hss].
  simpl. destruct (isspace c) eqn:E.
  - destruct in_run; [specialize (Hrun eq_refl); simpl in Hrun; congruence|].
    destruct Hc as [[Hns _]| ->]; [congruence|].
    f_equal. apply IH; auto.
  - f_equal. apply IH; auto; discriminate.
Qed.

(** X10: cleaning a cleaned text gives it back, given that the space U+0020 is
    white space. *)
Theorem clean_text_is_idempotent :
  forall text : pyval,
    isspace 32%N = true ->
    clean_text (VStr (clean_text text)) = clean_text text.
Proof.
  intros text Hspace.
  destruct (clean_text_shape text) as [Hhead [Hlast [Hss Hall]]].
  set (t := clean_text text) in *. simpl.
  assert (Hkeep : filter kept_char t = t).
  { apply forallb_filter_id. apply forallb_forall. intros c Hc.
    rewrite Forall_forall in Hall. destruct (Hall c Hc) as [[_ Hk]| ->]; [exact Hk|].
    unfold kept_char. rewrite Hspace. apply orb_true_r. }
  rewrite Hkeep, collapse_spaces_fixed by (assumption || discriminate).
  unfold strip. rewrite (lstrip_clean t Hhead), (lstrip_clean (rev t) Hlast).
  apply rev_involutive.
Qed.

End Cleaning.

Lemma clean_text_is_idempotent_witness :
  @clean_text Sample.basic_unicode
     (VStr (@clean_text Sample.basic_unicode (VStr (u "  视频！！  太棒了, ok  "))))
  = @clean_text Sample.basic_unicode (VStr (u "  视频！！  太棒了, ok  ")).
Proof.
  apply (@clean_text_is_idempotent Sample.basic_unicode
           (VStr (u "  视频！！  太棒了, ok  "))).
  vm_compute. reflexivity.
Defined.


(** ** The order of the frequency table *)

Lemma filter_twice : forall (A : Type) (p q : A -> bool) (l : list A),
  filter p (filter q l) = filter (fun x => q x && p x) l.
Proof.
  intros A p q l. induction l as [|x l IH]; [reflexivity|].
  simpl. destruct (q x); simpl; [destruct (p x)|]; now rewrite IH.
Qed.

Lemma counter_add_keys_eq : forall (c : counter) w,
  List.map fst (counter_add c w)
  = if mem w (List.map fst c) then List.map fst c else List.map fst c ++ [w].
Proof.
  unfold mem. induction c as [|[k n] c IH]; intros w; [reflexivity|].
  simpl. rewrite (RankingFacts.pystr_eqb_comm w k).
  destruct (pystr_eqb k w); simpl; [reflexivity|].
  rewrite IH. now destruct (existsb (pystr_eqb w) (List.map fst c)).
Qed.

Lemma mem_app : forall w l l', mem w (l ++ l') = mem w l || mem w l'.
Proof. intros w l l'. unfold mem. apply existsb_app. Qed.

Lemma counter_fold_keys : forall ws (c : counter),
  List.map fst (fold_left counter_add ws c)
  = List.map fst c
    ++ filter (fun x => negb (mem x (List.map fst c))) (first_seen ws).
Proof.
  induction ws as [|w ws IH]; intros c; simpl; [now rewrite app_nil_r|].
  rewrite IH, counter_add_keys_eq.
  destruct (mem w (List.map fst c)) eqn:E; simpl.
  - f_equal. rewrite filter_twice. apply filter_ext. intros x.
    destruct (pystr_eqb w x) eqn:Ex; [|reflexivity].
    apply pystr_eqb_eq in Ex. subst x. now rewrite E.
  - rewrite <- app_assoc. simpl. f_equal. f_equal.
    rewrite filter_twice. apply filter_ext. intros x.
    rewrite mem_app. unfold mem at 2. simpl.
    rewrite orb_false_r, negb_orb, (RankingFacts.pystr_eqb_comm x w).
    apply andb_comm.
Qed.

(** The keys of a [Counter] are the distinct items in the order in which
    they were first counted. *)
Lemma Counter_first_seen : forall ws, List.map fst (Counter ws) = first_seen ws.
Proof.
  intros ws. unfold Counter. rewrite counter_fold_keys. simpl.
  apply forallb_filter_id. apply forallb_forall. reflexivity.
Qed.

Lemma NoDup_keys_firstn : forall n (c : counter),
  NoDup (List.map fst c) -> NoDup (List.map fst (firstn n c)).
Proof.
  intros n c Hnd. rewrite <- (firstn_skipn n c), map_app in Hnd.
  now apply NoDup_app_remove_r in Hnd.
Qed.

Lemma NoDup_keys_filter : forall (p : pystr * nat -> bool) (c : counter),
  NoDup (List.map fst c) -> NoDup (List.map fst (filter p c)).
Proof.
  intros p c. induction c as [|x c IH]; intros Hnd; [constructor|].
  inversion Hnd as [|? ? Hx Hrest]; subst. simpl.
  destruct (p x); [|now apply IH]. simpl. constructor; [|now apply IH].
  intros Hin. apply Hx. apply in_map_iff in Hin as [y [Hy Hin]].
  apply filter_In in Hin as [Hin _]. apply in_map_iff. now exists y.
Qed.

Lemma descending_filter : forall (p : pystr * nat -> bool) (c : counter),
  descending c -> descending (filter p c).
Proof.
  intros p c. induction c as [|x c IH]; intros Hc; [exact I|].
  destruct Hc as [Hx Hc]. simpl. destruct (p x); [|now apply IH].
  split; [|now apply IH]. intros y Hy. apply Hx. now apply filter_In in Hy.
Qed.

Lemma most_common_NoDup : forall (c : counter) n,
  NoDup (List.map fst c) -> NoDup (List.map fst (most_common c n)).
Proof.
  intros c n Hnd. unfold most_common. apply NoDup_keys_firstn.
  apply (Permutation_NoDup (l := List.map fst c)); [|assumption].
  apply Permutation_map, Permutation_sym, RankingFacts.sorted_desc_perm.
Qed.

Section Frequencies.
Context {U : Unicode} {T : Tokenizer} {F : NumFormat}.

(** X11: the frequency table is exact: its keys are the distinct retained
    tokens of the corpus in the order of their first occurrence, each with
    the number of times it occurs; [unique_words] is the number of keys and
    [total_words] the number of retained tokens. *)
Theorem frequency_table_is_exact :
  forall (self : miner) (df : DataFrame) (text_column : pystr) (top_n : nat)
         (r : mining_result),
    analyze_comments self df text_column top_n = Ok (Some r) ->
    exists cells,
      df_getitem df text_column = Ok cells
      /\ let words := flat_map (comment_words self) (dropna cells) in
         List.map fst (all_word_counts r) = first_seen words
         /\ NoDup (List.map fst (all_word_counts r))
         /\ (forall w n, In (w, n) (all_word_counts r) <->
                         In w words /\ n = occurrences w words)
         /\ unique_words r = List.length (first_seen words)
         /\ total_words r = List.length words.
Proof.
  intros self df text_column top_n r Hrun.
  apply MinerFacts.analyze_comments_result in Hrun as [cells [Hcells ->]].
  exists cells. split; [exact Hcells|]. cbv zeta.
  cbn [all_word_counts unique_words total_words].
  set (words := flat_map (comment_words self) (dropna cells)).
  split; [apply Counter_first_seen|].
  split; [apply RankingFacts.Counter_NoDup|].
  split; [|split; [|reflexivity]].
  - intros w n. split.
    + intros Hin. split.
      * now apply MinerFacts.Counter_entry in Hin.
      * now apply RankingFacts.Counter_occurrences.
    + intros [Hin ->]. now apply RankingFacts.Counter_has.
  - rewrite <- Counter_first_seen. now rewrite length_map.
Qed.

(** X12: [top_words] holds the highest counts: it is in decreasing order of
    count, every entry of it is an entry of the frequency table, no entry
    left out has a higher count than one that is in, and its length is the
    smaller of [top_n] and the number of distinct words. *)
Theorem top_words_are_the_most_frequent :
  forall (self : miner) (df : DataFrame) (text_column : pystr) (top_n : nat)
         (r : mining_result),
    analyze_comments self df text_column top_n = Ok (Some r) ->
    descending (top_words r)
    /\ (forall x, In x (top_words r) -> In x (all_word_counts r))
    /\ (forall x y, In x (top_words r) -> In y (all_word_counts r) ->
                    ~ In y (top_words r) -> (snd y <= snd x)%nat)
    /\ List.length (top_words r) = Nat.min top_n (unique_words r).
Proof.
  intros self df text_column top_n r Hrun.
  apply MinerFacts.analyze_comments_result in Hrun as [cells [_ ->]].
  cbv zeta. cbn [all_word_counts unique_words top_words].
  set (c := Counter (flat_map (comment_words self) (dropna cells))).
  pose proof (RankingFacts.sorted_desc_perm c) as Hperm.
  pose proof (RankingFacts.sorted_desc_descending c) as Hdesc.
  unfold most_common. repeat split.
  - now apply RankingFacts.descending_firstn.
  - intros x Hx. apply (Permutation_in _ Hperm).
    rewrite <- (firstn_skipn top_n (sorted_desc c)). apply in_or_app. now left.
  - intros x y Hx Hy Hout.
    apply (Permutation_in _ (Permutation_sym Hperm)) in Hy.
    rewrite <- (firstn_skipn top_n (sorted_desc c)) in Hy.
    apply in_app_or in Hy as [Hy|Hy]; [contradiction|].
    now apply (RankingFacts.descending_split top_n (sorted_desc c)).
  - rewrite length_firstn. f_equal. now apply Permutation_length.
Qed.

(** X13: ties are broken by first occurrence: among the words of one count,
    [top_words] lists a first part of those of the frequency table, in the
    same order. *)
Theorem top_words_ties_keep_first_seen_order :
  forall (self : miner) (df : DataFrame) (text_column : pystr) (top_n : nat)
         (r : mining_result) (n : nat),
    analyze_comments self df text_column top_n = Ok (Some r) ->
    exists rest,
      with_count n (all_word_counts r) = with_count n (top_words r) ++ rest.
Proof.
  intros self df text_column top_n r n Hrun.
  apply MinerFacts.analyze_comments_result in Hrun as [cells [_ ->]].
  cbv zeta. cbn [all_word_counts top_words].
  set (c := Counter (flat_map (comment_words self) (dropna cells))).
  exists (with_count n (skipn top_n (sorted_desc c))).
  rewrite <- (RankingFacts.sorted_desc_with_count n c).
  unfold most_common, with_count.
  now rewrite <- filter_app, firstn_skipn.
Qed.

End Frequencies.

Lemma frequency_table_is_exact_witness :
  exists cells,
    df_getitem Sample.video_comments (u "内容") = Ok cells
    /\ let words := flat_map
                      (@comment_words Sample.basic_unicode Sample.space_tokenizer
                         Sample.no_numbers Sample.default_miner)
                      (dropna cells) in
       List.map fst (all_word_counts Sample.video_mined) = first_seen words
       /\ NoDup (List.map fst (all_word_counts Sample.video_mined))
       /\ (forall w n, In (w, n) (all_word_counts Sample.video_mined) <->
                       In w words /\ n = occurrences w words)
       /\ unique_words Sample.video_mined = List.length (first_seen words)
       /\ total_words Sample.video_mined = List.length words.
Proof.
  apply (@frequency_table_is_exact Sample.basic_unicode Sample.space_tokenizer
           Sample.no_numbers Sample.default_miner Sample.video_comments
           (u "内容") 2%nat Sample.video_mined).
  vm_compute. reflexivity.
Defined.

Lemma top_words_are_the_most_frequent_witness :
  descending (top_words Sample.video_mined)
  /\ (forall x, In x (top_words Sample.video_mined) ->
                In x (all_word_counts Sample.video_mined))
  /\ (forall x y, In x (top_words Sample.video_mined) ->
                  In y (all_word_counts Sample.video_mined) ->
                  ~ In y (top_words Sample.video_mined) -> (snd y <= snd x)%nat)
  /\ List.length (top_words Sample.video_mined)
     = Nat.min 2 (unique_words Sample.video_mined).
Proof.
  apply (@top_words_are_the_most_frequent Sample.basic_unicode
           Sample.space_tokenizer Sample.no_numbers Sample.default_miner
           Sample.video_comments (u "内容") 2%nat Sample.video_mined).
  vm_compute. reflexivity.
Defined.

Lemma top_words_ties_keep_first_seen_order_witness :
  exists rest,
    with_count 1 (all_word_counts Sample.video_mined)
    = with_count 1 (top_words Sample.video_mined) ++ rest.
Proof.
  apply (@top_words_ties_keep_first_seen_order Sample.basic_unicode
           Sample.space_tokenizer Sample.no_numbers Sample.default_miner
           Sample.video_comments (u "内容") 2%nat Sample.video_mined 1%nat).
  vm_compute. reflexivity.
Defined.

(** ** Edge cases and the word cloud *)

Section Results.
Context {U : Unicode} {T : Tokenizer} {F : NumFormat}.

Lemma analyze_comments_reads_one_column : forall self df df' text_column top_n,
  df_getitem df' text_column = df_getitem df text_column ->
  analyze_comments self df' text_column top_n
  = analyze_comments self df text_column top_n.
Proof. intros self df df' text_column top_n E. unfold analyze_comments. now rewrite E. Qed.

(** Another [top_n] changes [top_words] only. *)
Lemma analyze_comments_other_top_n : forall self df text_column n n' r,
  analyze_comments self df text_column n = Ok (Some r) ->
  analyze_comments self df text_column n'
  = Ok (Some {| top_words := most_common (all_word_counts r) n';
                total_words := total_words r;
                unique_words := unique_words r;
                all_word_counts := all_word_counts r |}).
Proof.
  intros self df text_column n n' r Hrun. unfold analyze_comments in *.
  destruct (df_getitem df text_column) as [cells|e]; [|discriminate Hrun].
  cbn [bind] in *. cbv zeta in *.
  destruct (clean_text _); [discriminate Hrun|].
  now injection Hrun as <-.
Qed.



(** X16: the word cloud holds exactly the entries of the frequency table whose
    count is at least two, each word once; the [top_n] that the mining was
    asked for plays no part. *)
Theorem wordcloud_is_the_table_from_two_up :
  forall (self : miner) (df : DataFrame) (text_column : pystr) (top_n : nat)
         (r : mining_result),
    analyze_comments self df text_column top_n = Ok (Some r) ->
    exists wc,
      generate_wordcloud_data self df text_column = Ok wc
      /\ NoDup (List.map fst wc)
      /\ forall w n, In (w, n) wc <->
                     In (w, n) (all_word_counts r) /\ (2 <= n)%nat.
Proof.
  intros self df text_column top_n r Hrun.
  unfold generate_wordcloud_data.
  rewrite (@analyze_comments_other_top_n self df text_column top_n 100%nat r Hrun).
  cbn [bind all_word_counts]. eexists. split; [reflexivity|]. split.
  - apply NoDup_keys_filter.
    apply MinerFacts.analyze_comments_result in Hrun as [cells [_ ->]].
    apply RankingFacts.Counter_NoDup.
  - intros w n. rewrite filter_In. cbn [snd]. now rewrite Nat.leb_le.
Qed.

(** X17: a key of the frequency table is a token that the segmenter produced
    for one of the comments that are not missing, with the white space at
    its ends removed. *)
Theorem table_keys_are_stripped_tokens :
  forall (self : miner) (df : DataFrame) (text_column : pystr) (top_n : nat)
         (r : mining_result) (w : pystr) (n : nat),
    analyze_comments self df text_column top_n = Ok (Some r) ->
    In (w, n) (all_word_counts r) ->
    starts_clean w /\ starts_clean (rev w)
    /\ exists cells v token,
         df_getitem df text_column = Ok cells
         /\ In v cells /\ notna v = true
         /\ In token (cut (py_str v)) /\ w = strip token.
Proof.
  intros self df text_column top_n r w n Hrun Hin.
  apply MinerFacts.analyze_comments_result in Hrun as [cells [Hcells ->]].
  cbv zeta in Hin. cbn [all_word_counts] in Hin.
  apply MinerFacts.Counter_entry in Hin as [Hin _].
  apply in_flat_map in Hin as [v [Hv Hin]].
  apply filter_In in Hv as [Hv Hna].
  unfold comment_words in Hin. apply filter_In in Hin as [Hin _].
  apply in_map_iff in Hin as [token [<- Htok]].
  split; [apply strip_starts_clean|]. split; [apply strip_ends_clean|].
  now exists cells, v, token.
Qed.

End Results.

Lemma wordcloud_is_the_table_from_two_up_witness :
  exists wc,
    @generate_wordcloud_data Sample.basic_unicode Sample.space_tokenizer
       Sample.no_numbers Sample.default_miner Sample.video_comments (u "内容")
    = Ok wc
    /\ NoDup (List.map fst wc)
    /\ forall w n, In (w, n) wc <->
                   In (w, n) (all_word_counts Sample.video_mined) /\ (2 <= n)%nat.
Proof.
  apply (@wordcloud_is_the_table_from_two_up Sample.basic_unicode
           Sample.space_tokenizer Sample.no_numbers Sample.default_miner
           Sample.video_comments (u "内容") 2%nat Sample.video_mined).
  vm_compute. reflexivity.
Defined.

Lemma table_keys_are_stripped_tokens_witness :
  @starts_clean Sample.basic_unicode (u "视频")
  /\ @starts_clean Sample.basic_unicode (rev (u "视频"))
  /\ exists cells v token,
       df_getitem Sample.video_comments (u "内容") = Ok cells
       /\ In v cells /\ notna v = true
       /\ In token (@cut Sample.space_tokenizer (@py_str Sample.no_numbers v))
       /\ u "视频" = @strip Sample.basic_unicode token.
Proof.
  apply (@table_keys_are_stripped_tokens Sample.basic_unicode
           Sample.space_tokenizer Sample.no_numbers Sample.default_miner
           Sample.video_comments (u "内容") 2%nat Sample.video_mined
           (u "视频") 2%nat).
  - vm_compute. reflexivity.
  - vm_compute. right. right. left. reflexivity.
Defined.

(** ** Hot topics *)

Section HotTopics.
Context {U : Unicode} {T : Tokenizer} {F : NumFormat} {R : Regex}.

Lemma find_hot_topics_reads_one_column : forall self df df' text_column min_count,
  df_getitem df' text_column = df_getitem df text_column ->
  find_hot_topics self df' text_column min_count
  = find_hot_topics self df text_column min_count.
Proof.
  intros self df df' text_column min_count E. unfold find_hot_topics.
  now rewrite (analyze_comments_reads_one_column self df df' text_column 50 E), E.
Qed.

Lemma topics_loop_listing : forall cells min_count tops topics,
  topics_loop cells min_count tops = Ok topics ->
  List.map (fun t => (keyword t, occurrence_count t)) topics
  = filter (fun kc => (min_count <=? Z.of_nat (snd kc))%Z) tops.
Proof.
  intros cells min_count tops. induction tops as [|[word count] tops IH];
    intros topics Hloop; simpl in Hloop.
  - now injection Hloop as <-.
  - cbn [filter snd]. destruct (min_count <=? Z.of_nat count)%Z.
    + destruct (str_contains cells word) as [mask|e]; [|discriminate Hloop].
      cbn [bind] in Hloop.
      destruct (topics_loop cells min_count tops) as [rest|e]; [|discriminate Hloop].
      cbn [bind] in Hloop. injection Hloop as <-. simpl. f_equal. now apply IH.
    + now apply IH.
Qed.


(** X18: when [find_hot_topics] returns, its topics are, in the order of the
    ranking, exactly the words among the fifty most frequent whose count
    reaches [min_count]: there are at most fifty, their occurrence counts
    never increase and no keyword comes twice. *)
Theorem hot_topics_follow_the_ranking :
  forall (self : miner) (df : DataFrame) (text_column : pystr) (min_count : Z)
         (r : mining_result) (topics : list HotTopic),
    analyze_comments self df text_column 50 = Ok (Some r) ->
    find_hot_topics self df text_column min_count = Ok topics ->
    List.map (fun t => (keyword t, occurrence_count t)) topics
      = filter (fun kc => (min_count <=? Z.of_nat (snd kc))%Z) (top_words r)
    /\ (List.length topics <= 50)%nat
    /\ descending (List.map (fun t => (keyword t, occurrence_count t)) topics)
    /\ NoDup (List.map keyword topics).
Proof.
  intros self df text_column min_count r topics Hmine Hrun.
  unfold find_hot_topics in Hrun. rewrite Hmine in Hrun. cbn [bind] in Hrun.
  destruct (df_getitem df text_column) as [cells|e]; [|discriminate Hrun].
  cbn [bind] in Hrun. apply topics_loop_listing in Hrun.
  apply MinerFacts.analyze_comments_result in Hmine as [cells' [_ ->]].
  cbv zeta in *. cbn [top_words] in *.
  set (c := Counter (flat_map (comment_words self) (dropna cells'))) in *.
  split; [exact Hrun|]. split; [|split].
  - rewrite <- (length_map (fun t => (keyword t, occurrence_count t))), Hrun.
    eapply Nat.le_trans; [apply filter_length_le | apply MinerFacts.most_common_length].
  - rewrite Hrun. apply descending_filter. unfold most_common.
    apply RankingFacts.descending_firstn, RankingFacts.sorted_desc_descending.
  - assert (Hkeys : List.map keyword topics
                    = List.map fst (List.map (fun t => (keyword t, occurrence_count t)) topics))
      by (now rewrite List.map_map).
    rewrite Hkeys, Hrun. apply NoDup_keys_filter, most_common_NoDup.
    apply RankingFacts.Counter_NoDup.
Qed.

(** X19: for every topic returned, the related comments are counted among the
    rows of the table, the samples are the first three of them or all of
    them when there are fewer, and each sample is a string cell of the
    text column. *)
Theorem hot_topic_samples_are_the_first_matches :
  forall (self : miner) (df : DataFrame) (text_column : pystr) (min_count : Z)
         (topics : list HotTopic) (t : HotTopic),
    find_hot_topics self df text_column min_count = Ok topics ->
    In t topics ->
    exists cells,
      df_getitem df text_column = Ok cells
      /\ (related_comment_count t <= List.length cells)%nat
      /\ List.length (sample_comments t) = Nat.min 3 (related_comment_count t)
      /\ forall v, In v (sample_comments t) -> In v cells /\ isinstance_str v = true.
Proof.
  intros self df text_column min_count topics t Hrun Hin.
  destruct (@MinerFacts.find_hot_topics_topics U T F R self df text_column min_count
              topics t Hrun Hin)
    as [_ [_ [cells [p [Hcells [_ [Hrel Hsample]]]]]]].
  exists cells. split; [exact Hcells|]. split; [|split].
  - rewrite Hrel. apply filter_length_le.
  - rewrite Hsample, Hrel. apply length_firstn.
  - intros v Hv. rewrite Hsample in Hv. apply MinerFacts.In_firstn in Hv.
    unfold pattern_matches in Hv. apply filter_In in Hv as [Hv Hmatch].
    split; [exact Hv|]. now destruct v.
Qed.

End HotTopics.


Lemma hot_topics_follow_the_ranking_witness :
  List.map (fun t => (keyword t, occurrence_count t)) Sample.video_topics
    = filter (fun kc => (2 <=? Z.of_nat (snd kc))%Z) (top_words Sample.video_ranked)
  /\ (List.length Sample.video_topics <= 50)%nat
  /\ descending (List.map (fun t => (keyword t, occurrence_count t)) Sample.video_topics)
  /\ NoDup (List.map keyword Sample.video_topics).
Proof.
  apply (@hot_topics_follow_the_ranking Sample.basic_unicode Sample.space_tokenizer
           Sample.no_numbers Sample.dot_regex Sample.default_miner
           Sample.video_comments (u "内容") 2%Z Sample.video_ranked
           Sample.video_topics);
    vm_compute; reflexivity.
Defined.

Lemma hot_topic_samples_are_the_first_matches_witness :
  exists cells,
    df_getitem Sample.video_comments (u "内容") = Ok cells
    /\ (2 <= List.length cells)%nat
    /\ List.length [ VStr (u "评分 3.5 视频"); VStr (u "第 325 集 视频") ] = Nat.min 3 2
    /\ forall v, In v [ VStr (u "评分 3.5 视频"); VStr (u "第 325 集 视频") ] ->
                 In v cells /\ isinstance_str v = true.
Proof.
  apply (@hot_topic_samples_are_the_first_matches Sample.basic_unicode
           Sample.space_tokenizer Sample.no_numbers Sample.dot_regex
           Sample.default_miner Sample.video_comments (u "内容") 2%Z
           Sample.video_topics
           {| keyword := u "视频"; occurrence_count := 2; related_comment_count := 2;
              sample_comments :=
                [ VStr (u "评分 3.5 视频"); VStr (u "第 325 集 视频") ] |}).
  - vm_compute. reflexivity.
  - left. reflexivity.
Defined.

(** ** Scoring, then mining *)

Section Pipeline.
Context {U : Unicode} {T : Tokenizer} {F : NumFormat} {R : Regex}.

(** X20: mining after scoring, as the command line does, finds what mining the
    unscored table finds: the frequency result, the word cloud and the hot
    topics of the scored table are those of the table as it was.  The text
    column must not be one of the two columns the scorer writes. *)
Theorem scoring_first_does_not_change_mining :
  forall (scorer : SentimentAnalyzer.analyzer) (self : miner) (h : store)
         (df : ref) (text_column : pystr) (top_n : nat) (min_count : Z)
         (h' : store) (df' : ref) (counts : counter),
    text_column <> u "情感分数" -> text_column <> u "情感分类" ->
    SentimentAnalyzer.analyze_comments scorer h df text_column
      = Ok (h', (df', counts)) ->
    analyze_comments self (h' df') text_column top_n
      = analyze_comments self (h df) text_column top_n
    /\ generate_wordcloud_data self (h' df') text_column
       = generate_wordcloud_data self (h df) text_column
    /\ find_hot_topics self (h' df') text_column min_count
       = find_hot_topics self (h df) text_column min_count.
Proof.
  intros scorer self h df text_column top_n min_count h' df' counts Hs Hl Hrun.
  destruct (df_getitem (h df) text_column) as [texts|e] eqn:Htexts.
  2:{ unfold SentimentAnalyzer.analyze_comments in Hrun.
      rewrite Htexts in Hrun. discriminate Hrun. }
  rewrite (ScorerFacts.analyze_comments_ok scorer h df text_column Htexts) in Hrun.
  injection Hrun as <- <- _.
  assert (Hsame : df_getitem
                    (store_set
                       (store_set h df
                          (df_setitem (h df) (u "情感分数") (score_column scorer texts)))
                       df (scored scorer (h df) texts) df) text_column
                  = df_getitem (h df) text_column).
  { rewrite SentimentFacts.store_set_same. now apply ScorerFacts.scored_keeps. }
  split; [|split].
  - now apply analyze_comments_reads_one_column.
  - unfold generate_wordcloud_data.
    now rewrite (analyze_comments_reads_one_column self _ _ text_column 100 Hsame).
  - now apply find_hot_topics_reads_one_column.
Qed.

End Pipeline.

Lemma scoring_first_does_not_change_mining_witness :
  @analyze_comments Sample.basic_unicode Sample.space_tokenizer Sample.no_numbers
     Sample.default_miner (Sample.store_after_scoring 0%nat) (u "内容") 15%nat
  = @analyze_comments Sample.basic_unicode Sample.space_tokenizer Sample.no_numbers
      Sample.default_miner (Sample.one_table Sample.praise 0%nat) (u "内容") 15%nat
  /\ @generate_wordcloud_data Sample.basic_unicode Sample.space_tokenizer
       Sample.no_numbers Sample.default_miner (Sample.store_after_scoring 0%nat)
       (u "内容")
     = @generate_wordcloud_data Sample.basic_unicode Sample.space_tokenizer
         Sample.no_numbers Sample.default_miner (Sample.one_table Sample.praise 0%nat)
         (u "内容")
  /\ @find_hot_topics Sample.basic_unicode Sample.space_tokenizer Sample.no_numbers
       Sample.dot_regex Sample.default_miner (Sample.store_after_scoring 0%nat)
       (u "内容") 2%Z
     = @find_hot_topics Sample.basic_unicode Sample.space_tokenizer Sample.no_numbers
         Sample.dot_regex Sample.default_miner (Sample.one_table Sample.praise 0%nat)
         (u "内容") 2%Z.
Proof.
  apply (@scoring_first_does_not_change_mining Sample.basic_unicode
           Sample.space_tokenizer Sample.no_numbers Sample.dot_regex
           SentimentAnalyzer.init Sample.default_miner
           (Sample.one_table Sample.praise) 0%nat (u "内容") 15%nat 2%Z
           Sample.store_after_scoring 0%nat [ (u "积极", 1%nat) ]).
  - vm_compute. discriminate.
  - vm_compute. discriminate.
  - vm_compute. reflexivity.
Defined.

End MiningFacts.
